(** * WalletContractV4: a shallow embedding of [improved-code-sample.ts]

    The wallet class is thin glue over the [ton-core] cell builder, an
    external state provider and an external signer.  The embedding keeps
    that shape:

    - JavaScript exceptions are values of [JsError]; a call that may throw
      returns [Result A = JsError + A];
    - [number] arguments that carry ids (workchain, wallet id, seqno) are
      integers, [Z]; an optional argument ([Maybe<T>]) is an [option];
      module [Js] embeds the constructor on every [number], integer or
      not, and [create] is its restriction to integers;
    - a [Buffer] is a [list byte];
    - the cell builder of [ton-core] is not part of the repository: it is
      modelled from the specification (module [TonCore]);
    - the provider and the signer are collaborators reached through an
      interface; their calls are recorded in a trace so that "called once"
      and "never called" can be stated. *)

From Stdlib Require Import ZArith List String Ascii Bool Lia.
From Stdlib Require Import Strings.Byte.
Import ListNotations.

Set Warnings "-register-all".

Local Open Scope string_scope.
Local Open Scope list_scope.
Local Open Scope Z_scope.

(** ** Exceptions *)

Record JsError : Type := mkError { name : string; message : string }.

(** [new Error(msg)] *)
Definition Error (msg : string) : JsError := mkError "Error" msg.

Definition Result (A : Type) : Type := (JsError + A)%type.

Definition ok {A} (a : A) : Result A := inr a.
Definition throw {A} (e : JsError) : Result A := inl e.

Definition rbind {A B} (r : Result A) (k : A -> Result B) : Result B :=
  match r with
  | inl e => inl e
  | inr a => k a
  end.

Declare Scope result_scope.
Delimit Scope result_scope with result.
Notation "x <- r ;; k" := (rbind r (fun x => k))
  (at level 61, r at next level, right associativity) : result_scope.

(** [try { body } catch (error) { throw new Error(prefix + error.message) }] *)
Definition try_catch {A} (prefix : string) (body : Result A) : Result A :=
  match body with
  | inl e => throw (Error (String.append prefix (message e)))
  | inr a => ok a
  end.

(** ** The cell layer of [ton-core] *)

Module TonCore.

(** Modelled from the spec: the Cell of section 3, a payload of bits and
    an ordered list of references to child cells. *)
Inductive Cell : Type :=
  mkCell (bits : list bool) (refs : list Cell) (is_exotic : bool).

Definition cell_bits (c : Cell) : list bool :=
  match c with mkCell bs _ _ => bs end.
Definition cell_refs (c : Cell) : list Cell :=
  match c with mkCell _ rs _ => rs end.

(** Modelled from the spec: a finalized cell holds at most 1023 bits and
    at most 4 references. *)
Definition MAX_BITS : nat := 1023.
Definition MAX_REFS : nat := 4.

(** Modelled from the spec: big-endian, MSB-first encoding of an unsigned
    integer on [n] bits (section 4.1). *)
Fixpoint uint_bits (n : nat) (value : Z) : list bool :=
  match n with
  | O => []
  | S k => Z.testbit value (Z.of_nat k) :: uint_bits k value
  end.

Definition bits_uint_from (acc : Z) (bs : list bool) : Z :=
  fold_left (fun a (b : bool) => 2 * a + (if b then 1 else 0)) bs acc.

Definition bits_uint (bs : list bool) : Z := bits_uint_from 0 bs.

Definition byte_bits (b : byte) : list bool :=
  uint_bits 8 (Z.of_N (Byte.to_N b)).

Definition buffer_bits (bytes : list byte) : list bool :=
  flat_map byte_bits bytes.

Definition bits_byte (bs : list bool) : byte :=
  match Byte.of_N (Z.to_N (bits_uint bs)) with
  | Some b => b
  | None => x00
  end.

(** Modelled from the spec: the CellBuilder of section 4.2, a mutable
    accumulator of bits and references; each store returns the builder so
    that calls chain. *)
Record Builder : Type := mkBuilder { b_bits : list bool; b_refs : list Cell }.

Definition beginCell : Builder := mkBuilder [] [].

Definition RangeError (msg : string) : JsError := mkError "RangeError" msg.
Definition OverflowError (msg : string) : JsError := mkError "OverflowError" msg.
Definition CapacityError (msg : string) : JsError := mkError "CapacityError" msg.

(** Modelled from the spec: appending bits fails once the 1023-bit
    capacity would be exceeded ("storing a 1024th bit fails"). *)
Definition writeBits (bs : list bool) (b : Builder) : Result Builder :=
  if (List.length (b_bits b) + List.length bs <=? MAX_BITS)%nat
  then ok (mkBuilder (b_bits b ++ bs) (b_refs b))
  else throw (OverflowError "cell capacity of 1023 bits exceeded").

(** Modelled from the spec: [writeUint(value, bits)] fails with RangeError
    if [value < 0] or [value >= 2^bits], or if the write would exceed the
    capacity. *)
Definition storeUint (value : Z) (n : nat) (b : Builder) : Result Builder :=
  if (value <? 0) || (2 ^ Z.of_nat n <=? value)
  then throw (RangeError "value does not fit in the requested bits")
  else if (List.length (b_bits b) + n <=? MAX_BITS)%nat
  then ok (mkBuilder (b_bits b ++ uint_bits n value) (b_refs b))
  else throw (RangeError "cell capacity of 1023 bits exceeded").

(** Modelled from the spec: [writeBuffer(bytes)] appends bytes MSB-first. *)
Definition storeBuffer (bytes : list byte) (b : Builder) : Result Builder :=
  writeBits (buffer_bits bytes) b.

(** Modelled from the spec: [writeBit(b)] appends one bit. *)
Definition storeBit (bit : bool) (b : Builder) : Result Builder :=
  writeBits [bit] b.

(** Modelled from the spec: [storeRef(cell)] fails with CapacityError if 4
    references are already present. *)
Definition storeRef (c : Cell) (b : Builder) : Result Builder :=
  if (List.length (b_refs b) <? MAX_REFS)%nat
  then ok (mkBuilder (b_bits b) (b_refs b ++ [c]))
  else throw (CapacityError "cell already holds 4 references").

(** Modelled from the spec: [finalize()] fails with OverflowError if the
    payload is longer than 1023 bits, else returns the immutable cell. *)
Definition endCell (b : Builder) : Result Cell :=
  if (List.length (b_bits b) <=? MAX_BITS)%nat
  then ok (mkCell (b_bits b) (b_refs b) false)
  else throw (OverflowError "cell payload longer than 1023 bits").

(** Modelled from the spec: reading mirrors writing with a monotonic
    cursor; here the cursor is the list of bits still to be read.
    [readUint(bits)] fails with RangeError if fewer bits remain. *)
Definition Slice : Type := list bool.

Definition beginParse (c : Cell) : Slice := cell_bits c.

Definition loadUint (n : nat) (s : Slice) : Result (Z * Slice) :=
  if (List.length s <? n)%nat
  then throw (RangeError "not enough bits left")
  else ok (bits_uint (firstn n s), skipn n s).

Definition loadBit (s : Slice) : Result (bool * Slice) :=
  match s with
  | [] => throw (RangeError "not enough bits left")
  | b :: rest => ok (b, rest)
  end.

Fixpoint bits_buffer (nbytes : nat) (s : list bool) : list byte :=
  match nbytes with
  | O => []
  | S k => bits_byte (firstn 8 s) :: bits_buffer k (skipn 8 s)
  end.

Definition loadBuffer (nbytes : nat) (s : Slice) : Result (list byte * Slice) :=
  if (List.length s <? 8 * nbytes)%nat
  then throw (RangeError "not enough bits left")
  else ok (bits_buffer nbytes s, skipn (8 * nbytes) s).

(** Modelled from the spec: an Address is a workchain id and a 256-bit
    digest (section 3). *)
Record Address : Type := mkAddress { workChain : Z; hash : list byte }.

End TonCore.

(** ** The wallet contract *)

Import TonCore.

Definition WALLET_CODE_BASE64 : string :=
  "te6ccgECFAEAAtQAART/APSkE/S88sgLAQIBIAIDAgFIBAUE+PKDCNcYINMf0x/THwL4I7vyZO1E0NMf0x/T//QE0VFDuvKhUVG68qIF+QFUEGT5EPKj+AAkpMjLH1JAyx9SMMv/UhD0AMntVPgPAdMHIcAAn2xRkyDXSpbTB9QC+wDoMOAhwAHjACHAAuMAAcADkTDjDQOkyMsfEssfy/8QERITAubQAdDTAyFxsJJfBOAi10nBIJJfBOAC0x8hghBwbHVnvSKCEGRzdHK9sJJfBeAD+kAwIPpEAcjKB8v/ydDtRNCBAUDXIfQEMFyBAQj0Cm+hMbOSXwfgBdM/yCWCEHBsdWe6kjgw4w0DghBkc3RyupJfBuMNBgcCASAICQB4AfoA9AQw+CdvIjBQCqEhvvLgUIIQcGx1Z4MesXCAGFAEywUmzxZY+gIZ9ADLaRfLH1Jgyz8gyYBA+wAGAIpQBIEBCPRZMO1E0IEBQNcgyAHPFvQAye1UAXKwjiOCEGRzdHKDHrFwgBhQBcsFUAPPFiP6AhPLassfyz/JgED7AJJfA+ICASAKCwBZvSQrb2omhAgKBrkPoCGEcNQICEekk30pkQzmkD6f+YN4EoAbeBAUiYcVnzGEAgFYDA0AEbjJftRNDXCx+AA9sp37UTQgQFA1yH0BDACyMoHy//J0AGBAQj0Cm+hMYAIBIA4PABmtznaiaEAga5Drhf/AABmvHfaiaEAQa5DrhY/AAG7SB/oA1NQi+QAFyMoHFcv/ydB3dIAYyMsFywIizxZQBfoCFMtrEszMyXP7AMhAFIEBCPRR8qcCAHCBAQjXGPoA0z/IVCBHgQEI9FHyp4IQbm90ZXB0gBjIywXLAlAGzxZQBPoCFMtqEssfyz/Jc/sAAgBsgQEI1xj6ANM/MFIkgQEI9Fnyp4IQZHN0cnB0gBjIywXLAlAFzxZQA/oCE8tqyx8Syz/Jc/sAAAr0AMntVA==".

(** [init: { data: Cell, code: Cell }]; [code] is what indexing the decoded
    roots with [[0]] gives, which JavaScript leaves undefined on an empty
    array. *)
Record Init : Type := mkInit { code : option Cell; data : Cell }.

Record WalletContractV4 : Type := mkWallet {
  workchain : Z;
  publicKey : list byte;
  address : Address;
  walletId : Z;
  init : Init
}.

Record CreateArgs : Type := mkCreateArgs {
  ca_workchain : Z;
  ca_publicKey : option (list byte);
  ca_walletId : option Z
}.

Definition SendMode : Type := Z.

(** [provider.getState()] answers [{ balance, state: { type, ... } }]. *)
Record AccountState : Type := mkAccountState { type : string }.
Record ContractState : Type := mkContractState { balance : Z; state : AccountState }.

(** What [ton-core] provides and the wallet only calls: the base64 and
    BOC decoders, the address derivation, the [SendMode] constant, the
    reader of a get-method's result stack and the type of messages. *)
Class TonCoreLib : Type := {
  Buffer_from_base64 : string -> list byte;
  Cell_fromBoc : list byte -> Result (list Cell);
  contractAddress : Z -> Init -> Address;
  PAY_GAS_SEPARATELY : SendMode;
  TupleItem : Type;
  TupleReader : Type;
  readNumber : TupleReader -> Result Z;
  MessageRelaxed : Type;
  StateInit : Type;
  (* internal({ to, value, init, body, bounce }) *)
  internal : Address -> Z -> option StateInit -> option Cell -> bool -> MessageRelaxed
}.

Section Construction.

Context {lib : TonCoreLib}.

Definition buildCode : Result (option Cell) :=
  try_catch "Failed to build code cell: "
    (cells <- Cell_fromBoc (Buffer_from_base64 WALLET_CODE_BASE64) ;;
     ok (hd_error cells))%result.

Definition buildData (walletId : Z) (publicKey : list byte) : Result Cell :=
  try_catch "Failed to build data cell: "
    (b <- storeUint 0 32 beginCell ;;
     b <- storeUint walletId 32 b ;;
     b <- storeBuffer publicKey b ;;
     b <- storeBit false b ;;
     endCell b)%result.

Definition constructor (workchain : Z) (publicKey : option (list byte))
    (walletId : option Z) : Result WalletContractV4 :=
  if (workchain <? -1) || (workchain >? 0)
  then throw (Error "Invalid workchain ID: must be -1 or 0")
  else
    match publicKey with
    | None => throw (Error "Invalid public key: must be 32 bytes")
    | Some publicKey =>
        if negb (List.length publicKey =? 32)%nat
        then throw (Error "Invalid public key: must be 32 bytes")
        else
          let walletId :=
            match walletId with
            | Some id => id
            | None => 698983191 + workchain
            end in
          (code <- buildCode ;;
           data <- buildData walletId publicKey ;;
           ok (mkWallet workchain publicKey
                 (contractAddress workchain (mkInit code data))
                 walletId (mkInit code data)))%result
    end.

Definition create (args : CreateArgs) : Result WalletContractV4 :=
  constructor (ca_workchain args) (ca_publicKey args) (ca_walletId args).

End Construction.

(** ** Calls to the provider and to the signer *)

Record GetResult `{TonCoreLib} : Type := mkGetResult { stack : TupleReader }.
Arguments mkGetResult {_} _.

(** The object handed to [createWalletTransferV4]. *)
Record SignerArgs `{TonCoreLib} : Type := mkSignerArgs {
  sa_seqno : Z;
  sa_sendMode : SendMode;
  sa_secretKey : list byte;
  sa_messages : list MessageRelaxed;
  sa_timeout : option Z;
  sa_walletId : Z
}.
Arguments mkSignerArgs {_} _ _ _ _ _ _.

(** The argument of [createTransfer] and [sendTransfer]. *)
Record TransferArgs `{TonCoreLib} : Type := mkTransferArgs {
  seqno : Z;
  secretKey : option (list byte);
  messages : option (list MessageRelaxed);
  sendMode : option SendMode;
  timeout : option Z
}.
Arguments mkTransferArgs {_} _ _ _ _ _.

(** The argument of the [send] of a [Sender]. *)
Record SenderArguments `{TonCoreLib} : Type := mkSenderArguments {
  sd_value : Z;
  sd_to : Address;
  sd_sendMode : option SendMode;
  sd_bounce : option bool;
  sd_init : option StateInit;
  sd_body : option Cell
}.
Arguments mkSenderArguments {_} _ _ _ _ _ _.

(** [ContractProvider], and the signer imported from
    [./signing/createWalletTransfer], act on an outside world of type [S]:
    each call may fail and may change it. *)
Class ContractProvider `{TonCoreLib} (S : Type) : Type := {
  getState : S -> Result ContractState * S;
  get : string -> list TupleItem -> S -> Result GetResult * S;
  external : Cell -> S -> Result unit * S
}.

Class Signer `{TonCoreLib} (S : Type) : Type := {
  createWalletTransferV4 : SignerArgs -> S -> Result Cell * S
}.

(** One entry of the trace per call that leaves the wallet. *)
Inductive Call `{TonCoreLib} : Type :=
| CallGetState
| CallGet (method : string) (args : list TupleItem)
| CallExternal (message : Cell)
| CallSigner (args : SignerArgs).

Record World `{TonCoreLib} (S : Type) : Type := mkWorld {
  outside : S;
  trace : list Call
}.
Arguments mkWorld {_ S} _ _.
Arguments outside {_ S} _.
Arguments trace {_ S} _.

Section Effects.

Context {lib : TonCoreLib} {S : Type}.
Context {provider : ContractProvider S} {signer : Signer S}.

(** A computation reads and updates the world and returns or throws. *)
Definition M (A : Type) : Type := World S -> Result A * World S.

Definition ret {A} (a : A) : M A := fun w => (ok a, w).

Definition raise {A} (e : JsError) : M A := fun w => (throw e, w).

Definition bind {A B} (m : M A) (k : A -> M B) : M B :=
  fun w =>
    match m w with
    | (inl e, w') => (inl e, w')
    | (inr a, w') => k a w'
    end.

Definition lift {A} (r : Result A) : M A := fun w => (r, w).

(** [try { body } catch (error) { throw new Error(prefix + error.message) }]
    around a body that talks to the world. *)
Definition try_catchM {A} (prefix : string) (body : M A) : M A :=
  fun w => let (r, w') := body w in (try_catch prefix r, w').

Definition perform {A} (c : Call) (f : S -> Result A * S) : M A :=
  fun w =>
    let (r, s') := f (outside w) in
    (r, mkWorld s' (trace w ++ [c])).

Definition provider_getState : M ContractState :=
  perform CallGetState getState.

Definition provider_get (method : string) (args : list TupleItem) : M GetResult :=
  perform (CallGet method args) (get method args).

Definition provider_external (message : Cell) : M unit :=
  perform (CallExternal message) (external message).

Definition call_createWalletTransferV4 (args : SignerArgs) : M Cell :=
  perform (CallSigner args) (createWalletTransferV4 args).

End Effects.

Declare Scope wallet_scope.
Delimit Scope wallet_scope with wallet.
Notation "x <- m ;; k" := (bind m (fun x => k))
  (at level 61, m at next level, right associativity) : wallet_scope.

Section Methods.

Context {lib : TonCoreLib} {S : Type}.
Context {provider : ContractProvider S} {signer : Signer S}.

Variable this : WalletContractV4.

Definition getBalance : M Z :=
  try_catchM "Failed to get balance: "
    (st <- provider_getState ;;
     ret (balance st))%wallet.

Definition getSeqno : M Z :=
  try_catchM "Failed to get seqno: "
    (st <- provider_getState ;;
     if String.eqb (type (state st)) "active"
     then (res <- provider_get "seqno" [] ;;
           lift (readNumber (stack res)))
     else ret 0)%wallet.

Definition send (message : Cell) : M unit :=
  try_catchM "Failed to send message: "
    (provider_external message).

Definition createTransfer (args : TransferArgs) : M Cell :=
  match secretKey args with
  | None => raise (Error "Invalid secret key: must be 64 bytes")
  | Some secretKey =>
      if negb (List.length secretKey =? 64)%nat
      then raise (Error "Invalid secret key: must be 64 bytes")
      else
        match messages args with
        | None => raise (Error "No messages to send")
        | Some messages =>
            if (List.length messages =? 0)%nat
            then raise (Error "No messages to send")
            else
              let sendMode :=
                match sendMode args with
                | Some mode => mode
                | None => PAY_GAS_SEPARATELY
                end in
              call_createWalletTransferV4
                (mkSignerArgs (seqno args) sendMode secretKey messages
                   (timeout args) (walletId this))
        end
  end.

Definition sendTransfer (args : TransferArgs) : M unit :=
  try_catchM "Failed to send transfer: "
    (transfer <- createTransfer args ;;
     send transfer)%wallet.

Definition sender (secretKey : option (list byte))
    : Result (SenderArguments -> M unit) :=
  match secretKey with
  | None => throw (Error "Invalid secret key: must be 64 bytes")
  | Some secretKey =>
      if negb (List.length secretKey =? 64)%nat
      then throw (Error "Invalid secret key: must be 64 bytes")
      else
        ok (fun args =>
              try_catchM "Sender error: "
                (seqno <- getSeqno ;;
                 transfer <- createTransfer
                   (mkTransferArgs seqno (Some secretKey)
                      (Some [internal (sd_to args) (sd_value args)
                               (sd_init args) (sd_body args)
                               (match sd_bounce args with
                                | Some b => b
                                | None => true
                                end)])
                      (sd_sendMode args) None) ;;
                 send transfer)%wallet)
  end.

End Methods.

(** ** Reading a data cell back *)

Record WalletState : Type := mkWalletState {
  ws_seqno : Z;
  ws_wallet_id : Z;
  ws_public_key : list byte;
  ws_plugins_empty_flag : bool
}.

(** Modelled from the spec: the WalletState layout of section 3, read in
    the order [seqno: uint32, wallet_id: uint32, public_key: 32 bytes,
    plugins_empty_flag: 1 bit] with the readers of section 4.1; the
    repository itself has no decoder of the data cell. *)
Definition decodeWalletState (c : Cell) : Result WalletState :=
  (r1 <- loadUint 32 (beginParse c) ;;
   r2 <- loadUint 32 (snd r1) ;;
   r3 <- loadBuffer 32 (snd r2) ;;
   r4 <- loadBit (snd r3) ;;
   ok (mkWalletState (fst r1) (fst r2) (fst r3) (fst r4)))%result.

(** The builder calls of [buildData], without the surrounding try/catch. *)
Definition data_builder_chain (walletId : Z) (publicKey : list byte) : Result Cell :=
  (b <- storeUint 0 32 beginCell ;;
   b <- storeUint walletId 32 b ;;
   b <- storeBuffer publicKey b ;;
   b <- storeBit false b ;;
   endCell b)%result.

(** The layout of the data cell in the words of the specification: seqno 0
    on 32 bits, the wallet id on 32 bits, the bytes of the public key, one
    0 bit; no reference. *)
Definition wallet_data_cell (walletId : Z) (publicKey : list byte) : Cell :=
  mkCell (uint_bits 32 0 ++ uint_bits 32 walletId ++ buffer_bits publicKey ++ [false])
    [] false.

(** [walletId ?? (698983191 + workchain)] *)
Definition resolved_walletId (workchain : Z) (walletId : option Z) : Z :=
  match walletId with
  | Some id => id
  | None => 698983191 + workchain
  end.

(** The object [createTransfer] hands to the signer once the secret key
    [k] and the messages [ms] have passed validation. *)
Definition signer_args_of `{TonCoreLib} (this : WalletContractV4)
    (args : TransferArgs) (k : list byte) (ms : list MessageRelaxed) : SignerArgs :=
  mkSignerArgs (seqno args)
    (match sendMode args with
     | Some mode => mode
     | None => PAY_GAS_SEPARATELY
     end)
    k ms (timeout args) (walletId this).

(** The argument [sender(...).send] builds for [createTransfer] from the
    seqno [n] it has read. *)
Definition sender_transfer_args `{TonCoreLib} (k : list byte)
    (args : SenderArguments) (n : Z) : TransferArgs :=
  mkTransferArgs n (Some k)
    (Some [internal (sd_to args) (sd_value args) (sd_init args) (sd_body args)
             (match sd_bounce args with
              | Some b => b
              | None => true
              end)])
    (sd_sendMode args) None.

(** ** The constructor over JavaScript numbers *)

(** [workchain] and [walletId] are declared [number]: the constructor also
    receives values that are not integers.  This module embeds the
    constructor on all of them; [create] above is its restriction to
    integers (lemma [create_on_integers]). *)
Module Js.

(** A [number]: an integer, a finite value that is not an integer, an
    infinity or NaN.  [NonInt fl fr] is [fl + 0.b1 ... bn] in binary, the
    bits [b1 ... bn] being those of [fr] from the lowest up to its leading
    1: [NonInt (-1) 1] is [-1 + 0.1] in binary, that is -0.5.  Negative
    zero is [Int 0], as [===] does not tell them apart. *)
Inductive number : Type :=
| Int (z : Z)
| NonInt (floor : Z) (frac : positive)
| Infinity
| NegInfinity
| NaN.

(** Order of two fractional parts, bit by bit. *)
Fixpoint frac_compare (p q : positive) : comparison :=
  match p, q with
  | xH, xH => Eq
  | xH, xO _ => Gt
  | xH, xI _ => Lt
  | xO _, xH => Lt
  | xI _, xH => Gt
  | xO _, xI _ => Lt
  | xI _, xO _ => Gt
  | xO p', xO q' => frac_compare p' q'
  | xI p', xI q' => frac_compare p' q'
  end.

(** [x < y]; false as soon as one side is NaN. *)
Definition ltb (x y : number) : bool :=
  match x, y with
  | NaN, _ => false
  | _, NaN => false
  | _, NegInfinity => false
  | Infinity, _ => false
  | NegInfinity, _ => true
  | _, Infinity => true
  | Int a, Int b => a <? b
  | Int a, NonInt g _ => a <=? g
  | NonInt f _, Int b => f <? b
  | NonInt f p, NonInt g q =>
      (f <? g) ||
      ((f =? g) && match frac_compare p q with Lt => true | _ => false end)
  end.

(** [x > y] *)
Definition gtb (x y : number) : bool := ltb y x.

Definition MAX_SAFE_INTEGER : Z := 2 ^ 53 - 1.

Definition safe (z : Z) : bool :=
  (- MAX_SAFE_INTEGER <=? z) && (z <=? MAX_SAFE_INTEGER).

(** What the runtime and [ton-core] do on numbers that are not integers:
    the floating-point sum, and the address derivation, which takes the
    workchain as a [number]. *)
Class Runtime : Type := {
  float_add : number -> number -> number;
  contractAddress : number -> Init -> Address
}.

(** [x + y]: NaN if an operand is NaN, the integer sum where it is exact
    (both operands and the sum are safe integers), the floating-point sum
    of the runtime otherwise. *)
Definition add `{Runtime} (x y : number) : number :=
  match x, y with
  | NaN, _ => NaN
  | _, NaN => NaN
  | Int a, Int b =>
      if safe a && safe b && safe (a + b) then Int (a + b) else float_add x y
  | _, _ => float_add x y
  end.

(** Modelled from the spec: [writeUint(value, bits)] on a [number]; it
    fails with RangeError if [value] does not fit in [bits] bits.  The spec
    says nothing of a value that is not an integer; it has no encoding on
    [bits] bits, and [ton-core] converts with [BigInt(value)], which
    throws a RangeError on it. *)
Definition storeUint (value : number) (n : nat) (b : Builder) : Result Builder :=
  match value with
  | Int z => TonCore.storeUint z n b
  | _ => throw (RangeError "value does not fit in the requested bits")
  end.

Record WalletContractV4 : Type := mkWallet {
  workchain : number;
  publicKey : list byte;
  address : Address;
  walletId : number;
  init : Init
}.

Record CreateArgs : Type := mkCreateArgs {
  ca_workchain : number;
  ca_publicKey : option (list byte);
  ca_walletId : option number
}.

Section Construction.

Context {lib : TonCoreLib} {rt : Runtime}.

Definition buildData (walletId : number) (publicKey : list byte) : Result Cell :=
  try_catch "Failed to build data cell: "
    (b <- TonCore.storeUint 0 32 beginCell ;;
     b <- storeUint walletId 32 b ;;
     b <- storeBuffer publicKey b ;;
     b <- storeBit false b ;;
     endCell b)%result.

Definition constructor (workchain : number) (publicKey : option (list byte))
    (walletId : option number) : Result WalletContractV4 :=
  if ltb workchain (Int (-1)) || gtb workchain (Int 0)
  then throw (Error "Invalid workchain ID: must be -1 or 0")
  else
    match publicKey with
    | None => throw (Error "Invalid public key: must be 32 bytes")
    | Some publicKey =>
        if negb (List.length publicKey =? 32)%nat
        then throw (Error "Invalid public key: must be 32 bytes")
        else
          let walletId :=
            match walletId with
            | Some id => id
            | None => add (Int 698983191) workchain
            end in
          (code <- buildCode ;;
           data <- buildData walletId publicKey ;;
           ok (mkWallet workchain publicKey
                 (contractAddress workchain (mkInit code data))
                 walletId (mkInit code data)))%result
    end.

Definition create (args : CreateArgs) : Result WalletContractV4 :=
  constructor (ca_workchain args) (ca_publicKey args) (ca_walletId args).

End Construction.

(** [walletId ?? (698983191 + workchain)] *)
Definition resolved_walletId `{Runtime} (workchain : number)
    (walletId : option number) : number :=
  match walletId with
  | Some id => id
  | None => add (Int 698983191) workchain
  end.

End Js.

(** A wallet with integer workchain and wallet id, as a wallet over
    numbers. *)
Definition wallet_to_js (w : WalletContractV4) : Js.WalletContractV4 :=
  Js.mkWallet (Js.Int (workchain w)) (publicKey w) (address w)
    (Js.Int (walletId w)) (init w).

(** ** Concrete collaborators, used to run the model *)

Module Demo.

Definition code_cell : Cell := mkCell [true; true; true; true] [] false.

Definition lib : TonCoreLib := {|
  Buffer_from_base64 := fun _ => [];
  Cell_fromBoc := fun _ => ok [code_cell];
  contractAddress := fun wc _ => mkAddress wc (repeat x00 32);
  PAY_GAS_SEPARATELY := 1;
  TupleItem := Z;
  TupleReader := list Z;
  readNumber := fun st =>
    match st with
    | [] => throw (Error "EOF")
    | n :: _ => ok n
    end;
  MessageRelaxed := string;
  StateInit := unit;
  internal := fun _ _ _ _ _ => "internal"
|}.

Definition zero_key : list byte := repeat x00 32.
Definition secret : list byte := repeat x01 64.

(** What [create] answers on workchain 0, the all-zero key and no wallet
    id, and on the same with wallet id 7. *)
Definition wallet : WalletContractV4 :=
  mkWallet 0 zero_key (mkAddress 0 (repeat x00 32)) 698983191
    (mkInit (Some code_cell) (wallet_data_cell 698983191 zero_key)).

Definition wallet7 : WalletContractV4 :=
  mkWallet 0 zero_key (mkAddress 0 (repeat x00 32)) 7
    (mkInit (Some code_cell) (wallet_data_cell 7 zero_key)).

Definition wallet7_masterchain : WalletContractV4 :=
  mkWallet (-1) zero_key (mkAddress (-1) (repeat x00 32)) 7
    (mkInit (Some code_cell) (wallet_data_cell 7 zero_key)).

Definition connection_reset : JsError :=
  mkError "TransportError" "connection reset".

(** A provider whose every call fails in transport; its state counts the
    calls it received. *)
Definition failing_provider : @ContractProvider lib nat := {|
  getState := fun n => (throw connection_reset, Datatypes.S n);
  get := fun _ _ n => (throw connection_reset, Datatypes.S n);
  external := fun _ n => (throw connection_reset, Datatypes.S n)
|}.

(** A provider of a contract in state [ty] whose [seqno] method answers
    7. *)
Definition provider_of (ty : string) : @ContractProvider lib nat := {|
  getState := fun n => (ok (mkContractState 1000 (mkAccountState ty)), Datatypes.S n);
  get := fun _ _ n => (ok (@mkGetResult lib [7]), Datatypes.S n);
  external := fun _ n => (ok tt, Datatypes.S n)
|}.

(** A provider that is active but whose get-methods fail. *)
Definition active_get_failing : @ContractProvider lib nat := {|
  getState := fun n => (ok (mkContractState 1000 (mkAccountState "active")), Datatypes.S n);
  get := fun _ _ n => (throw connection_reset, Datatypes.S n);
  external := fun _ n => (ok tt, Datatypes.S n)
|}.

(** A signer that answers a cell holding the seqno on 32 bits. *)
Definition signer : @Signer lib nat := {|
  createWalletTransferV4 := fun (a : @SignerArgs lib) n =>
    (ok (mkCell (uint_bits 32 (sa_seqno a)) [] false), Datatypes.S n)
|}.

Definition world0 : @World lib nat := mkWorld 0%nat [].

Definition transfer_args (mode : option SendMode) : @TransferArgs lib :=
  @mkTransferArgs lib 5 (Some secret) (Some ["hello"]) mode (Some 60).

Definition invalid_magic : JsError := mkError "Error" "Invalid magic".

(** The same library with a BOC decoder that rejects every input. *)
Definition broken_lib : TonCoreLib := {|
  Buffer_from_base64 := fun _ => [];
  Cell_fromBoc := fun _ => throw invalid_magic;
  contractAddress := fun wc _ => mkAddress wc (repeat x00 32);
  PAY_GAS_SEPARATELY := 1;
  TupleItem := Z;
  TupleReader := list Z;
  readNumber := fun st =>
    match st with
    | [] => throw (Error "EOF")
    | n :: _ => ok n
    end;
  MessageRelaxed := string;
  StateInit := unit;
  internal := fun _ _ _ _ _ => "internal"
|}.


Definition signing_failed : JsError := mkError "Error" "bad secret key".

(** A signer that always throws. *)
Definition failing_signer : @Signer lib nat := {|
  createWalletTransferV4 := fun _ n => (throw signing_failed, Datatypes.S n)
|}.

Definition destination : Address := mkAddress 0 (repeat xff 32).

Definition sender_args (bounce : option bool) : @SenderArguments lib :=
  @mkSenderArguments lib 100 destination None bounce None None.

(** A runtime for the constructor over numbers: the address derivation of
    [lib] on integer workchains and the same digest elsewhere; no sum of
    non-integers is needed by the runs below, [float_add] is a stand-in. *)
Definition runtime : Js.Runtime := {|
  Js.float_add := fun _ _ => Js.NaN;
  Js.contractAddress := fun wc i =>
    match wc with
    | Js.Int z => @contractAddress lib z i
    | _ => mkAddress 0 (repeat x00 32)
    end
|}.

Definition minus_half : Js.number := Js.NonInt (-1) 1.

(** What the constructor over numbers answers on workchain -0.5, the
    all-zero key and wallet id 7. *)
Definition wallet_minus_half : Js.WalletContractV4 :=
  Js.mkWallet minus_half zero_key (mkAddress 0 (repeat x00 32)) (Js.Int 7)
    (mkInit (Some code_cell) (wallet_data_cell 7 zero_key)).

End Demo.

(** * Properties *)

(** ** Bits written and read back *)

Section BitLemmas.

Lemma uint_bits_length (n : nat) (v : Z) : List.length (uint_bits n v) = n.
Proof. induction n as [|k IH]; simpl; [reflexivity | now rewrite IH]. Qed.

Lemma bits_uint_from_uint_bits (n : nat) (v acc : Z) :
  bits_uint_from acc (uint_bits n v) = acc * 2 ^ Z.of_nat n + v mod 2 ^ Z.of_nat n.
Proof.
  revert acc. induction n as [|k IH]; intros acc.
  - cbn [uint_bits bits_uint_from fold_left]. change (2 ^ Z.of_nat 0) with 1.
    rewrite Z.mod_1_r. lia.
  - cbn [uint_bits]. unfold bits_uint_from in *. cbn [fold_left].
    rewrite IH.
    rewrite Nat2Z.inj_succ, Z.pow_succ_r by lia.
    rewrite (Z.mul_comm 2 (2 ^ Z.of_nat k)).
    rewrite Z.rem_mul_r by lia.
    rewrite <- (Z.testbit_spec' v (Z.of_nat k)) by lia.
    destruct (Z.testbit v (Z.of_nat k)); cbn [Z.b2z]; lia.
Qed.

Lemma bits_uint_uint_bits (n : nat) (v : Z) :
  0 <= v < 2 ^ Z.of_nat n -> bits_uint (uint_bits n v) = v.
Proof.
  intros Hv. unfold bits_uint. rewrite bits_uint_from_uint_bits.
  rewrite Z.mod_small by exact Hv. lia.
Qed.

Lemma byte_bits_length (b : byte) : List.length (byte_bits b) = 8%nat.
Proof. apply uint_bits_length. Qed.

Lemma bits_byte_byte_bits (b : byte) : bits_byte (byte_bits b) = b.
Proof. destruct b; reflexivity. Qed.

Lemma buffer_bits_length (bytes : list byte) :
  List.length (buffer_bits bytes) = (8 * List.length bytes)%nat.
Proof.
  induction bytes as [|b bs IH]; [reflexivity|].
  cbn [buffer_bits flat_map]. rewrite length_app, byte_bits_length.
  fold (buffer_bits bs). rewrite IH. cbn [List.length]. lia.
Qed.

Lemma firstn_exact {A} (n : nat) (xs ys : list A) :
  List.length xs = n -> firstn n (xs ++ ys) = xs.
Proof.
  intros <-.
  induction xs as [|x xs IH]; simpl; [now destruct ys | now rewrite IH].
Qed.

Lemma skipn_exact {A} (n : nat) (xs ys : list A) :
  List.length xs = n -> skipn n (xs ++ ys) = ys.
Proof.
  intros <-. induction xs as [|x xs IH]; simpl; [reflexivity | exact IH].
Qed.

Lemma bits_buffer_buffer_bits (bytes : list byte) (rest : list bool) :
  bits_buffer (List.length bytes) (buffer_bits bytes ++ rest) = bytes.
Proof.
  induction bytes as [|b bs IH]; [reflexivity|].
  cbn [buffer_bits flat_map List.length bits_buffer].
  fold (buffer_bits bs). rewrite <- app_assoc.
  rewrite firstn_exact, skipn_exact by apply byte_bits_length.
  rewrite bits_byte_byte_bits, IH. reflexivity.
Qed.

Lemma loadUint_uint_bits (n : nat) (v : Z) (rest : list bool) :
  0 <= v < 2 ^ Z.of_nat n ->
  loadUint n (uint_bits n v ++ rest) = ok (v, rest).
Proof.
  intros Hv. unfold loadUint.
  rewrite length_app, uint_bits_length.
  replace (n + List.length rest <? n)%nat with false
    by (symmetry; apply Nat.ltb_ge; lia).
  rewrite firstn_exact, skipn_exact by apply uint_bits_length.
  rewrite bits_uint_uint_bits by exact Hv.
  reflexivity.
Qed.

Lemma loadBuffer_buffer_bits (bytes : list byte) (rest : list bool) :
  loadBuffer (List.length bytes) (buffer_bits bytes ++ rest) = ok (bytes, rest).
Proof.
  unfold loadBuffer. rewrite length_app, buffer_bits_length.
  replace (8 * List.length bytes + List.length rest <? 8 * List.length bytes)%nat
    with false by (symmetry; apply Nat.ltb_ge; lia).
  rewrite bits_buffer_buffer_bits.
  rewrite skipn_exact by apply buffer_bits_length. reflexivity.
Qed.

End BitLemmas.

(** ** The builder *)

(** Side conditions on the number of bits already stored. *)
Ltac capacity :=
  unfold MAX_BITS; cbn [b_bits b_refs beginCell];
  rewrite ?length_app, ?uint_bits_length, ?buffer_bits_length;
  repeat match goal with
         | H : List.length ?k = _ |- context [List.length ?k] => rewrite H
         end;
  cbn [List.length]; lia.

Section BuilderLemmas.

Lemma storeUint_ok (v : Z) (n : nat) (b : Builder) :
  0 <= v < 2 ^ Z.of_nat n ->
  (List.length (b_bits b) + n <= MAX_BITS)%nat ->
  storeUint v n b = ok (mkBuilder (b_bits b ++ uint_bits n v) (b_refs b)).
Proof.
  intros [Hlo Hhi] Hcap. unfold storeUint.
  replace (v <? 0) with false by (symmetry; apply Z.ltb_ge; exact Hlo).
  replace (2 ^ Z.of_nat n <=? v) with false by (symmetry; apply Z.leb_gt; exact Hhi).
  cbn [orb].
  replace (List.length (b_bits b) + n <=? MAX_BITS)%nat with true
    by (symmetry; apply Nat.leb_le; exact Hcap).
  reflexivity.
Qed.

Lemma storeUint_inv (v : Z) (n : nat) (b b' : Builder) :
  storeUint v n b = ok b' ->
  0 <= v < 2 ^ Z.of_nat n /\
  (List.length (b_bits b) + n <= MAX_BITS)%nat /\
  b' = mkBuilder (b_bits b ++ uint_bits n v) (b_refs b).
Proof.
  unfold storeUint.
  destruct (v <? 0) eqn:Hlo; cbn [orb]; [discriminate|].
  destruct (2 ^ Z.of_nat n <=? v) eqn:Hhi; [discriminate|].
  destruct (List.length (b_bits b) + n <=? MAX_BITS)%nat eqn:Hcap; [|discriminate].
  intros H. inversion H; subst b'.
  apply Z.ltb_ge in Hlo. apply Z.leb_gt in Hhi. apply Nat.leb_le in Hcap.
  repeat split; assumption.
Qed.

Lemma writeBits_ok (bs : list bool) (b : Builder) :
  (List.length (b_bits b) + List.length bs <= MAX_BITS)%nat ->
  writeBits bs b = ok (mkBuilder (b_bits b ++ bs) (b_refs b)).
Proof.
  intros Hcap. unfold writeBits.
  replace (List.length (b_bits b) + List.length bs <=? MAX_BITS)%nat with true
    by (symmetry; apply Nat.leb_le; exact Hcap).
  reflexivity.
Qed.

Lemma writeBits_inv (bs : list bool) (b b' : Builder) :
  writeBits bs b = ok b' ->
  (List.length (b_bits b) + List.length bs <= MAX_BITS)%nat /\
  b' = mkBuilder (b_bits b ++ bs) (b_refs b).
Proof.
  unfold writeBits.
  destruct (List.length (b_bits b) + List.length bs <=? MAX_BITS)%nat eqn:Hcap;
    [|discriminate].
  intros H. inversion H. apply Nat.leb_le in Hcap. split; [assumption | reflexivity].
Qed.

Lemma endCell_inv (b : Builder) (c : Cell) :
  endCell b = ok c -> c = mkCell (b_bits b) (b_refs b) false.
Proof.
  unfold endCell.
  destruct (List.length (b_bits b) <=? MAX_BITS)%nat; [|discriminate].
  intros H. inversion H. reflexivity.
Qed.

Lemma rbind_ok {A B} (x : A) (k : A -> Result B) : rbind (ok x) k = k x.
Proof. reflexivity. Qed.

Lemma rbind_ok_inv {A B} (r : Result A) (k : A -> Result B) (y : B) :
  rbind r k = ok y -> exists x, r = ok x /\ k x = ok y.
Proof.
  destruct r as [e|x]; cbn [rbind]; [discriminate|].
  intros H. exists x. split; [reflexivity | exact H].
Qed.

Lemma try_catch_ok {A} (prefix : string) (x : A) :
  try_catch prefix (ok x) = ok x.
Proof. reflexivity. Qed.

Lemma try_catch_throw {A} (prefix : string) (e : JsError) :
  @try_catch A prefix (throw e) = throw (Error (String.append prefix (message e))).
Proof. reflexivity. Qed.

Lemma try_catch_ok_inv {A} (prefix : string) (r : Result A) (y : A) :
  try_catch prefix r = ok y -> r = ok y.
Proof. destruct r as [e|x]; cbn [try_catch]; [discriminate | exact (fun H => H)]. Qed.

(** Whenever the chain of stores of [buildData] returns a cell, the wallet
    id fits in 32 bits and the cell has the layout of the specification. *)
Lemma data_builder_chain_inv (walletId : Z) (publicKey : list byte) (c : Cell) :
  data_builder_chain walletId publicKey = ok c ->
  0 <= walletId < 2 ^ 32 /\ c = wallet_data_cell walletId publicKey.
Proof.
  unfold data_builder_chain. intros H.
  apply rbind_ok_inv in H as (b1 & H1 & H).
  apply rbind_ok_inv in H as (b2 & H2 & H).
  apply rbind_ok_inv in H as (b3 & H3 & H).
  apply rbind_ok_inv in H as (b4 & H4 & H).
  apply storeUint_inv in H1 as (_ & _ & ->).
  apply storeUint_inv in H2 as (Hid & _ & ->).
  apply writeBits_inv in H3 as (_ & ->).
  apply writeBits_inv in H4 as (_ & ->).
  apply endCell_inv in H. subst c.
  split; [exact Hid|].
  unfold wallet_data_cell. cbn [b_bits b_refs beginCell].
  rewrite app_nil_l, <- !app_assoc. reflexivity.
Qed.

Lemma data_builder_chain_ok (walletId : Z) (publicKey : list byte) :
  0 <= walletId < 2 ^ 32 ->
  List.length publicKey = 32%nat ->
  data_builder_chain walletId publicKey = ok (wallet_data_cell walletId publicKey).
Proof.
  intros Hid Hlen. unfold data_builder_chain.
  rewrite (storeUint_ok 0 32 beginCell); [|now vm_compute | capacity].
  rewrite rbind_ok, storeUint_ok; [|exact Hid | capacity].
  rewrite rbind_ok. cbn [b_bits b_refs beginCell]. unfold storeBuffer.
  rewrite writeBits_ok by capacity.
  rewrite rbind_ok. cbn [b_bits b_refs]. unfold storeBit.
  rewrite writeBits_ok by capacity.
  rewrite rbind_ok. cbn [b_bits b_refs]. unfold endCell. cbn [b_bits b_refs].
  replace (List.length _ <=? MAX_BITS)%nat with true.
  - unfold wallet_data_cell. rewrite app_nil_l, <- !app_assoc. reflexivity.
  - symmetry. apply Nat.leb_le. capacity.
Qed.

(** Reading the layout back. *)
Lemma decode_wallet_data_cell (walletId : Z) (publicKey : list byte) :
  0 <= walletId < 2 ^ 32 ->
  List.length publicKey = 32%nat ->
  decodeWalletState (wallet_data_cell walletId publicKey)
  = ok (mkWalletState 0 walletId publicKey false).
Proof.
  intros Hid Hlen. unfold decodeWalletState, wallet_data_cell, beginParse.
  cbn [cell_bits].
  rewrite (loadUint_uint_bits 32 0) by now vm_compute.
  rewrite rbind_ok. cbn [fst snd].
  rewrite (loadUint_uint_bits 32 walletId) by exact Hid.
  rewrite rbind_ok. cbn [fst snd].
  rewrite <- Hlen at 1. rewrite loadBuffer_buffer_bits.
  rewrite rbind_ok. cbn [fst snd loadBit]. rewrite rbind_ok. reflexivity.
Qed.

End BuilderLemmas.

(** ** Construction of a wallet *)

Section ConstructionProperties.

Context {lib : TonCoreLib}.

Lemma workchain_check_passes (wc : Z) :
  wc = -1 \/ wc = 0 -> (wc <? -1) || (wc >? 0) = false.
Proof. intros [-> | ->]; reflexivity. Qed.

Lemma workchain_check_fails (wc : Z) :
  wc <> -1 -> wc <> 0 -> (wc <? -1) || (wc >? 0) = true.
Proof.
  intros Hm1 H0. apply orb_true_iff.
  destruct (Z_lt_le_dec wc (-1)) as [Hlt | Hge].
  - left. apply Z.ltb_lt. exact Hlt.
  - right. rewrite Z.gtb_ltb. apply Z.ltb_lt. lia.
Qed.

Lemma workchain_check_inv (wc : Z) :
  (wc <? -1) || (wc >? 0) = false -> wc = -1 \/ wc = 0.
Proof.
  intros H. apply orb_false_iff in H as [Hlo Hhi].
  apply Z.ltb_ge in Hlo. rewrite Z.gtb_ltb in Hhi. apply Z.ltb_ge in Hhi. lia.
Qed.

(** Everything a returned wallet holds is fixed by the arguments, the
    embedded constant and the library. *)
Lemma constructor_inv (wc : Z) (opk : option (list byte)) (wid : option Z)
    (w : WalletContractV4) :
  constructor wc opk wid = ok w ->
  (wc = -1 \/ wc = 0) /\
  exists pk cells,
    opk = Some pk /\
    List.length pk = 32%nat /\
    Cell_fromBoc (Buffer_from_base64 WALLET_CODE_BASE64) = ok cells /\
    0 <= resolved_walletId wc wid < 2 ^ 32 /\
    w = mkWallet wc pk
          (contractAddress wc
             (mkInit (hd_error cells)
                (wallet_data_cell (resolved_walletId wc wid) pk)))
          (resolved_walletId wc wid)
          (mkInit (hd_error cells)
             (wallet_data_cell (resolved_walletId wc wid) pk)).
Proof.
  unfold constructor.
  destruct ((wc <? -1) || (wc >? 0)) eqn:Hwc; [discriminate|].
  destruct opk as [pk|]; [|discriminate].
  destruct (List.length pk =? 32)%nat eqn:Hlen; cbn [negb]; [|discriminate].
  fold (resolved_walletId wc wid). intros H.
  apply rbind_ok_inv in H as (c & Hcode & H).
  apply rbind_ok_inv in H as (d & Hdata & H).
  unfold buildCode in Hcode. apply try_catch_ok_inv in Hcode.
  apply rbind_ok_inv in Hcode as (cells & Hboc & Hhd).
  unfold buildData in Hdata. apply try_catch_ok_inv in Hdata.
  apply data_builder_chain_inv in Hdata as [Hid ->].
  inversion Hhd; subst c. inversion H; subst w.
  split; [apply workchain_check_inv; exact Hwc|].
  exists pk, cells. apply Nat.eqb_eq in Hlen. repeat split; try assumption; apply Hid.
Qed.

Lemma constructor_ok (wc : Z) (pk : list byte) (wid : option Z) (cells : list Cell) :
  wc = -1 \/ wc = 0 ->
  List.length pk = 32%nat ->
  Cell_fromBoc (Buffer_from_base64 WALLET_CODE_BASE64) = ok cells ->
  0 <= resolved_walletId wc wid < 2 ^ 32 ->
  constructor wc (Some pk) wid
  = ok (mkWallet wc pk
          (contractAddress wc
             (mkInit (hd_error cells)
                (wallet_data_cell (resolved_walletId wc wid) pk)))
          (resolved_walletId wc wid)
          (mkInit (hd_error cells)
             (wallet_data_cell (resolved_walletId wc wid) pk))).
Proof.
  intros Hwc Hlen Hboc Hid. unfold constructor.
  rewrite (workchain_check_passes wc Hwc), Hlen. cbn [Nat.eqb negb].
  change (Nat.eqb 32 32) with true. cbn [negb].
  fold (resolved_walletId wc wid).
  unfold buildCode. rewrite Hboc, rbind_ok, try_catch_ok, rbind_ok.
  unfold buildData. fold (data_builder_chain (resolved_walletId wc wid) pk).
  rewrite (data_builder_chain_ok _ _ Hid Hlen), try_catch_ok, rbind_ok.
  reflexivity.
Qed.

Lemma default_walletId_fits (wc : Z) :
  wc = -1 \/ wc = 0 -> 0 <= resolved_walletId wc None < 2 ^ 32.
Proof. intros [-> | ->]; now vm_compute. Qed.

(** Claim C1.  For a workchain in {-1, 0} and a 32-byte public key, the
    data cell of every wallet returned by [create] is the result of
    storing, in order, the 32-bit unsigned 0 (seqno), the 32-bit unsigned
    wallet id, the bytes of the key and one 0 bit: it is the outcome of
    that chain of stores, it has exactly that payload and no reference,
    and it reads back as [{seqno 0, wallet_id, public_key, flag 0}].  A
    wallet is returned as soon as the embedded code decodes and the
    wallet id fits in 32 bits.  With workchain 0 and no wallet id the
    cell reads back with wallet id 698983191. *)
Theorem C1_data_cell_layout (wc : Z) (pk : list byte) (wid : option Z) :
  wc = -1 \/ wc = 0 ->
  List.length pk = 32%nat ->
  (forall w, create (mkCreateArgs wc (Some pk) wid) = ok w ->
     publicKey w = pk /\
     data_builder_chain (walletId w) pk = ok (data (init w)) /\
     cell_bits (data (init w))
     = uint_bits 32 0 ++ uint_bits 32 (walletId w) ++ buffer_bits pk ++ [false] /\
     cell_refs (data (init w)) = [] /\
     decodeWalletState (data (init w)) = ok (mkWalletState 0 (walletId w) pk false)) /\
  (forall cells,
     Cell_fromBoc (Buffer_from_base64 WALLET_CODE_BASE64) = ok cells ->
     0 <= resolved_walletId wc wid < 2 ^ 32 ->
     exists w, create (mkCreateArgs wc (Some pk) wid) = ok w) /\
  (wc = 0 -> wid = None ->
   forall w, create (mkCreateArgs wc (Some pk) wid) = ok w ->
     decodeWalletState (data (init w)) = ok (mkWalletState 0 698983191 pk false)).
Proof.
  intros Hwc Hlen.
  assert (Hret : forall w, create (mkCreateArgs wc (Some pk) wid) = ok w ->
            0 <= walletId w < 2 ^ 32 /\
            walletId w = resolved_walletId wc wid /\
            publicKey w = pk /\
            data (init w) = wallet_data_cell (walletId w) pk).
  { intros w Hw. unfold create in Hw. cbn [ca_workchain ca_publicKey ca_walletId] in Hw.
    apply constructor_inv in Hw as (_ & pk' & cells & Hpk & _ & _ & Hid & ->).
    inversion Hpk; subst pk'. cbn [walletId publicKey init data].
    repeat split; try reflexivity; apply Hid. }
  split; [|split].
  - intros w Hw. destruct (Hret w Hw) as (Hid & _ & Hkey & Hdata).
    rewrite Hdata. split; [exact Hkey|]. split.
    + apply data_builder_chain_ok; assumption.
    + split; [reflexivity|]. split; [reflexivity|].
      apply decode_wallet_data_cell; assumption.
  - intros cells Hboc Hid. eexists. unfold create.
    cbn [ca_workchain ca_publicKey ca_walletId].
    apply (constructor_ok wc pk wid cells); assumption.
  - intros -> -> w Hw. destruct (Hret w Hw) as (Hid & Hres & _ & Hdata).
    rewrite Hdata, Hres. apply decode_wallet_data_cell; [now vm_compute | exact Hlen].
Qed.

(** Claim C2.  With a workchain in {-1, 0}, a 32-byte key and no wallet
    id, every wallet returned by [create] has wallet id
    [698983191 + workchain], and one is returned as soon as the embedded
    code decodes; for workchain -1 this is 698983190. *)
Theorem C2_default_walletId (wc : Z) (pk : list byte) :
  wc = -1 \/ wc = 0 ->
  List.length pk = 32%nat ->
  (forall w, create (mkCreateArgs wc (Some pk) None) = ok w ->
     walletId w = 698983191 + wc) /\
  (forall cells,
     Cell_fromBoc (Buffer_from_base64 WALLET_CODE_BASE64) = ok cells ->
     exists w, create (mkCreateArgs wc (Some pk) None) = ok w /\
               walletId w = 698983191 + wc) /\
  (wc = -1 ->
   forall w, create (mkCreateArgs wc (Some pk) None) = ok w ->
     walletId w = 698983190).
Proof.
  intros Hwc Hlen.
  assert (Hret : forall w, create (mkCreateArgs wc (Some pk) None) = ok w ->
            walletId w = 698983191 + wc).
  { intros w Hw. unfold create in Hw. cbn [ca_workchain ca_publicKey ca_walletId] in Hw.
    apply constructor_inv in Hw as (_ & pk' & cells & _ & _ & _ & _ & ->).
    reflexivity. }
  split; [exact Hret|]. split.
  - intros cells Hboc. eexists. split.
    + unfold create. cbn [ca_workchain ca_publicKey ca_walletId].
      apply (constructor_ok wc pk None cells); try assumption.
      apply default_walletId_fits; exact Hwc.
    + reflexivity.
  - intros -> w Hw. rewrite (Hret w Hw). reflexivity.
Qed.

(** Claim C5.  For a workchain in {-1, 0} and a key that is missing or
    whose length is not 32, [create] throws the error "Invalid public
    key: must be 32 bytes" and so returns no wallet. *)
Theorem C5_invalid_publicKey (wc : Z) (opk : option (list byte)) (wid : option Z) :
  wc = -1 \/ wc = 0 ->
  (forall pk, opk = Some pk -> List.length pk <> 32%nat) ->
  create (mkCreateArgs wc opk wid)
  = throw (Error "Invalid public key: must be 32 bytes").
Proof.
  intros Hwc Hbad. unfold create, constructor.
  cbn [ca_workchain ca_publicKey ca_walletId].
  rewrite (workchain_check_passes wc Hwc).
  destruct opk as [pk|]; [|reflexivity].
  destruct (List.length pk =? 32)%nat eqn:Hlen; [|reflexivity].
  apply Nat.eqb_eq in Hlen. destruct (Hbad pk eq_refl Hlen).
Qed.

End ConstructionProperties.



(** ** Calls to the provider and to the signer *)

Section MethodProperties.

Context {lib : TonCoreLib} {S : Type}.
Context {provider : ContractProvider S} {signer : Signer S}.

Lemma perform_run {A} (c : Call) (f : S -> Result A * S) (w : World S) :
  perform c f w
  = (fst (f (outside w)), mkWorld (snd (f (outside w))) (trace w ++ [c])).
Proof. unfold perform. destruct (f (outside w)); reflexivity. Qed.

Lemma perform_eq {A} (c : Call) (f : S -> Result A * S) (w : World S)
    (r : Result A) (s' : S) :
  f (outside w) = (r, s') ->
  perform c f w = (r, mkWorld s' (trace w ++ [c])).
Proof. intros H. rewrite perform_run, H. reflexivity. Qed.

Lemma getBalance_getState_fails (w : World S) (e : JsError) (s' : S) :
  getState (outside w) = (throw e, s') ->
  getBalance w
  = (throw (Error (String.append "Failed to get balance: " (message e))),
     mkWorld s' (trace w ++ [CallGetState])).
Proof.
  intros H. unfold getBalance, try_catchM, bind, provider_getState.
  rewrite (perform_eq _ _ _ _ _ H). reflexivity.
Qed.

Lemma getSeqno_getState_fails (w : World S) (e : JsError) (s' : S) :
  getState (outside w) = (throw e, s') ->
  getSeqno w
  = (throw (Error (String.append "Failed to get seqno: " (message e))),
     mkWorld s' (trace w ++ [CallGetState])).
Proof.
  intros H. unfold getSeqno, try_catchM, bind, provider_getState.
  rewrite (perform_eq _ _ _ _ _ H). reflexivity.
Qed.

Lemma getSeqno_active (w : World S) (st : ContractState) (s1 : S) :
  getState (outside w) = (ok st, s1) ->
  type (state st) = "active" ->
  getSeqno w
  = (try_catch "Failed to get seqno: "
       (res <- fst (get "seqno" [] s1) ;; readNumber (stack res))%result,
     mkWorld (snd (get "seqno" [] s1))
       (trace w ++ [CallGetState; CallGet "seqno" []])).
Proof.
  intros H Hty. unfold getSeqno, try_catchM, bind, provider_getState.
  rewrite (perform_eq _ _ _ _ _ H). unfold ok at 1. rewrite Hty.
  cbn [String.eqb Ascii.eqb Bool.eqb]. unfold provider_get.
  rewrite perform_run. cbn [outside trace].
  rewrite <- app_assoc. cbn [app].
  destruct (get "seqno" [] s1) as [[e|res] s2]; cbn [fst snd rbind lift]; reflexivity.
Qed.

Lemma getSeqno_not_active (w : World S) (st : ContractState) (s1 : S) :
  getState (outside w) = (ok st, s1) ->
  type (state st) <> "active" ->
  getSeqno w = (ok 0, mkWorld s1 (trace w ++ [CallGetState])).
Proof.
  intros H Hty. unfold getSeqno, try_catchM, bind, provider_getState.
  rewrite (perform_eq _ _ _ _ _ H). unfold ok at 1.
  destruct (String.eqb_spec (type (state st)) "active") as [Heq | _];
    [destruct (Hty Heq) | reflexivity].
Qed.

Lemma send_external_fails (w : World S) (msg : Cell) (e : JsError) (s' : S) :
  external msg (outside w) = (throw e, s') ->
  send msg w
  = (throw (Error (String.append "Failed to send message: " (message e))),
     mkWorld s' (trace w ++ [CallExternal msg])).
Proof.
  intros H. unfold send, try_catchM, provider_external.
  rewrite (perform_eq _ _ _ _ _ H). reflexivity.
Qed.

(** On a well-formed argument [createTransfer] is one call of the
    signer. *)
Lemma createTransfer_valid (this : WalletContractV4) (args : TransferArgs)
    (w : World S) (k : list byte) (ms : list MessageRelaxed) :
  secretKey args = Some k ->
  List.length k = 64%nat ->
  messages args = Some ms ->
  ms <> [] ->
  createTransfer this args w
  = call_createWalletTransferV4
      (mkSignerArgs (seqno args)
         (match sendMode args with
          | Some mode => mode
          | None => PAY_GAS_SEPARATELY
          end)
         k ms (timeout args) (walletId this)) w.
Proof.
  intros Hk Hlen Hms Hne. unfold createTransfer.
  rewrite Hk, Hlen, Hms. change (Nat.eqb 64 64) with true. cbn [negb].
  destruct ms as [|m ms']; [destruct (Hne eq_refl) | reflexivity].
Qed.

(** Claim C3, as amended.  A failure raised by the provider inside
    [getBalance], [getSeqno] or [send] is neither retried nor suppressed:
    the failing provider call is the last call made, it is made once, and
    the method fails.  The error that reaches the caller is not the
    provider's: it is a new [Error] whose message is the method's prefix
    ("Failed to get balance: ", "Failed to get seqno: ", "Failed to send
    message: ") followed by the message of the provider's error. *)
Theorem C3_provider_failure_wrapped (w : World S) (e : JsError) (s' : S) :
  (getState (outside w) = (throw e, s') ->
   getBalance w
   = (throw (Error (String.append "Failed to get balance: " (message e))),
      mkWorld s' (trace w ++ [CallGetState])) /\
   getSeqno w
   = (throw (Error (String.append "Failed to get seqno: " (message e))),
      mkWorld s' (trace w ++ [CallGetState]))) /\
  (forall st s1,
     getState (outside w) = (ok st, s1) ->
     type (state st) = "active" ->
     get "seqno" [] s1 = (throw e, s') ->
     getSeqno w
     = (throw (Error (String.append "Failed to get seqno: " (message e))),
        mkWorld s' (trace w ++ [CallGetState; CallGet "seqno" []]))) /\
  (forall msg,
     external msg (outside w) = (throw e, s') ->
     send msg w
     = (throw (Error (String.append "Failed to send message: " (message e))),
        mkWorld s' (trace w ++ [CallExternal msg]))).
Proof.
  split; [|split].
  - intros H. split.
    + apply getBalance_getState_fails; exact H.
    + apply getSeqno_getState_fails; exact H.
  - intros st s1 Hst Hty Hget.
    rewrite (getSeqno_active w st s1 Hst Hty), Hget. reflexivity.
  - intros msg H. apply send_external_fails; exact H.
Qed.

(** Claim C6.  When the secret key is missing or not 64 bytes long, or
    the list of messages is missing or empty, [createTransfer] throws an
    error ("Invalid secret key: must be 64 bytes" for the key, "No
    messages to send" for the messages) and leaves the world as it was:
    nothing is added to the trace, so the signer is not called. *)
Theorem C6_createTransfer_validation (this : WalletContractV4)
    (args : TransferArgs) (w : World S) :
  (forall k, secretKey args = Some k -> List.length k <> 64%nat) \/
  (forall ms, messages args = Some ms -> ms = []) ->
  exists msg,
    createTransfer this args w = (throw (Error msg), w) /\
    ((forall k, secretKey args = Some k -> List.length k <> 64%nat) ->
     msg = "Invalid secret key: must be 64 bytes") /\
    ((exists k, secretKey args = Some k /\ List.length k = 64%nat) ->
     msg = "No messages to send") /\
    trace (snd (createTransfer this args w)) = trace w.
Proof.
  intros Hbad. unfold createTransfer.
  destruct (secretKey args) as [k|] eqn:Hk.
  - destruct (List.length k =? 64)%nat eqn:Hlen; cbn [negb].
    + apply Nat.eqb_eq in Hlen.
      assert (Hms : forall ms, messages args = Some ms -> ms = []).
      { destruct Hbad as [Hkey | Hms]; [|exact Hms].
        destruct (Hkey k eq_refl Hlen). }
      exists "No messages to send".
      destruct (messages args) as [ms|] eqn:Hm.
      * rewrite (Hms ms eq_refl). cbn [List.length Nat.eqb].
        repeat split; try reflexivity.
        intros Hkey. destruct (Hkey k eq_refl Hlen).
      * repeat split; try reflexivity.
        intros Hkey. destruct (Hkey k eq_refl Hlen).
    + apply Nat.eqb_neq in Hlen.
      exists "Invalid secret key: must be 64 bytes".
      repeat split; try reflexivity.
      intros (k' & Hk' & Hlen'). inversion Hk'; subst k'. destruct (Hlen Hlen').
  - exists "Invalid secret key: must be 64 bytes".
    repeat split; try reflexivity.
    intros (k' & Hk' & _). discriminate Hk'.
Qed.

(** Claim C7.  On a 64-byte secret key and a non-empty list of messages,
    [createTransfer] is exactly one call of [createWalletTransferV4]: it
    returns what the signer returns (or throws what it throws), and the
    signer receives the caller's seqno, secret key, messages and timeout
    together with the wallet's own wallet id. *)
Theorem C7_createTransfer_delegates (this : WalletContractV4)
    (args : TransferArgs) (w : World S) (k : list byte)
    (ms : list MessageRelaxed) :
  secretKey args = Some k ->
  List.length k = 64%nat ->
  messages args = Some ms ->
  ms <> [] ->
  exists sa : SignerArgs,
    createTransfer this args w
    = (fst (createWalletTransferV4 sa (outside w)),
       mkWorld (snd (createWalletTransferV4 sa (outside w)))
         (trace w ++ [CallSigner sa])) /\
    sa_seqno sa = seqno args /\
    sa_secretKey sa = k /\
    sa_messages sa = ms /\
    sa_timeout sa = timeout args /\
    sa_walletId sa = walletId this.
Proof.
  intros Hk Hlen Hms Hne. eexists. split.
  - rewrite (createTransfer_valid this args w k ms Hk Hlen Hms Hne).
    unfold call_createWalletTransferV4. apply perform_run.
  - cbn [sa_seqno sa_secretKey sa_messages sa_timeout sa_walletId].
    repeat split; reflexivity.
Qed.

(** Claim C9.  When [getState] succeeds with a state whose type is not
    "active", [getSeqno] returns 0 after that single call: [get] is not
    called.  When the type is "active", [getSeqno] calls [get("seqno",
    [])] once and returns the number read from the result stack (a
    failure of the call or of the read being rethrown with the prefix
    "Failed to get seqno: "). *)
Theorem C9_getSeqno_by_state (w : World S) (st : ContractState) (s1 : S) :
  getState (outside w) = (ok st, s1) ->
  (type (state st) <> "active" ->
   getSeqno w = (ok 0, mkWorld s1 (trace w ++ [CallGetState]))) /\
  (type (state st) = "active" ->
   getSeqno w
   = (try_catch "Failed to get seqno: "
        (res <- fst (get "seqno" [] s1) ;; readNumber (stack res))%result,
      mkWorld (snd (get "seqno" [] s1))
        (trace w ++ [CallGetState; CallGet "seqno" []]))) /\
  (forall res s2 n,
     type (state st) = "active" ->
     get "seqno" [] s1 = (ok res, s2) ->
     readNumber (stack res) = ok n ->
     fst (getSeqno w) = ok n).
Proof.
  intros Hst. split; [|split].
  - intros Hty. apply (getSeqno_not_active w st s1); assumption.
  - intros Hty. apply (getSeqno_active w st s1); assumption.
  - intros res s2 n Hty Hget Hread.
    rewrite (getSeqno_active w st s1 Hst Hty), Hget. cbn [fst].
    rewrite rbind_ok, Hread. reflexivity.
Qed.

(** Claim C10.  On a 64-byte secret key and a non-empty list of messages,
    [createTransfer] is the call of [createWalletTransferV4] on an argument
    whose [sendMode] is [SendMode.PAY_GAS_SEPARATELY] when the caller gave
    no send mode and the caller's send mode otherwise: the result and the
    outside state are those of the signer applied to that argument, and
    the call is the one entry added to the trace. *)
Theorem C10_sendMode_default (this : WalletContractV4)
    (args : TransferArgs) (w : World S) (k : list byte)
    (ms : list MessageRelaxed) :
  secretKey args = Some k ->
  List.length k = 64%nat ->
  messages args = Some ms ->
  ms <> [] ->
  exists sa : SignerArgs,
    createTransfer this args w
    = (fst (createWalletTransferV4 sa (outside w)),
       mkWorld (snd (createWalletTransferV4 sa (outside w)))
         (trace w ++ [CallSigner sa])) /\
    (sendMode args = None -> sa_sendMode sa = PAY_GAS_SEPARATELY) /\
    (forall mode, sendMode args = Some mode -> sa_sendMode sa = mode).
Proof.
  intros Hk Hlen Hms Hne.
  rewrite (createTransfer_valid this args w k ms Hk Hlen Hms Hne).
  unfold call_createWalletTransferV4. rewrite perform_run.
  eexists. split; [reflexivity|]. cbn [sa_sendMode].
  split.
  - intros ->. reflexivity.
  - intros mode ->. reflexivity.
Qed.

End MethodProperties.

(** ** The claims at concrete inputs *)

(** C1 at workchain 0, the all-zero key and no wallet id. *)
Lemma C1_data_cell_layout_witness :
  exists w,
    @create Demo.lib (mkCreateArgs 0 (Some Demo.zero_key) None) = ok w /\
    decodeWalletState (data (init w))
    = ok (mkWalletState 0 698983191 Demo.zero_key false).
Proof.
  destruct (@C1_data_cell_layout Demo.lib 0 Demo.zero_key None
              (or_intror eq_refl) eq_refl) as (_ & Hreturns & H0).
  destruct (Hreturns [Demo.code_cell] eq_refl) as [w Hw].
  - vm_compute. split; [discriminate | reflexivity].
  - exists w. split; [exact Hw | exact (H0 eq_refl eq_refl w Hw)].
Defined.

(** C2 at workchain -1. *)
Lemma C2_default_walletId_witness :
  exists w,
    @create Demo.lib (mkCreateArgs (-1) (Some Demo.zero_key) None) = ok w /\
    walletId w = 698983190.
Proof.
  destruct (@C2_default_walletId Demo.lib (-1) Demo.zero_key
              (or_introl eq_refl) eq_refl) as (_ & Hreturns & Hm1).
  destruct (Hreturns [Demo.code_cell] eq_refl) as (w & Hw & _).
  exists w. split; [exact Hw | exact (Hm1 eq_refl w Hw)].
Defined.

(** C5 at workchain 0 and a key of 31 bytes. *)
Lemma C5_invalid_publicKey_witness :
  @create Demo.lib (mkCreateArgs 0 (Some (repeat x00 31)) None)
  = throw (Error "Invalid public key: must be 32 bytes").
Proof.
  apply (@C5_invalid_publicKey Demo.lib 0 (Some (repeat x00 31)) None).
  - right. reflexivity.
  - intros pk Hpk. injection Hpk as <-. vm_compute. discriminate.
Defined.


(** C3 as stated fails: the provider throws a TransportError with message
    "connection reset"; what [getBalance] throws is another error, of
    name "Error" and message "Failed to get balance: connection reset". *)
Lemma C3_counterexample :
  fst (@getState Demo.lib nat Demo.failing_provider (outside Demo.world0))
  = throw Demo.connection_reset /\
  fst (@getBalance Demo.lib nat Demo.failing_provider Demo.world0)
  = throw (mkError "Error" "Failed to get balance: connection reset") /\
  fst (@getBalance Demo.lib nat Demo.failing_provider Demo.world0)
  <> throw Demo.connection_reset.
Proof.
  split; [reflexivity|]. split; [reflexivity|].
  vm_compute. discriminate.
Qed.

(** C3 as amended, at a provider whose calls all fail and at an active
    contract whose get-method fails. *)
Lemma C3_provider_failure_wrapped_witness :
  @getBalance Demo.lib nat Demo.failing_provider Demo.world0
  = (throw (Error "Failed to get balance: connection reset"),
     mkWorld 1%nat [CallGetState]) /\
  @getSeqno Demo.lib nat Demo.active_get_failing Demo.world0
  = (throw (Error "Failed to get seqno: connection reset"),
     mkWorld 2%nat [CallGetState; CallGet "seqno" []]) /\
  @send Demo.lib nat Demo.failing_provider Demo.code_cell Demo.world0
  = (throw (Error "Failed to send message: connection reset"),
     mkWorld 1%nat [CallExternal Demo.code_cell]).
Proof.
  destruct (@C3_provider_failure_wrapped Demo.lib nat Demo.failing_provider
              Demo.world0 Demo.connection_reset 1%nat) as (Hstate & _ & Hsend).
  destruct (@C3_provider_failure_wrapped Demo.lib nat Demo.active_get_failing
              Demo.world0 Demo.connection_reset 2%nat) as (_ & Hget & _).
  split; [exact (proj1 (Hstate eq_refl))|].
  split.
  - exact (Hget (mkContractState 1000 (mkAccountState "active")) 1%nat
             eq_refl eq_refl eq_refl).
  - exact (Hsend Demo.code_cell eq_refl).
Defined.

(** C6 at a secret key of 63 bytes. *)
Lemma C6_createTransfer_validation_witness :
  @createTransfer Demo.lib nat Demo.signer Demo.wallet
    (@mkTransferArgs Demo.lib 5 (Some (repeat x01 63)) (Some ["hello"]) None None)
    Demo.world0
  = (throw (Error "Invalid secret key: must be 64 bytes"), Demo.world0).
Proof.
  assert (Hkey : forall k : list byte,
             secretKey (@mkTransferArgs Demo.lib 5 (Some (repeat x01 63))
                          (Some ["hello"]) None None) = Some k ->
             List.length k <> 64%nat).
  { intros k Hk. injection Hk as <-. vm_compute. discriminate. }
  destruct (@C6_createTransfer_validation Demo.lib nat Demo.signer Demo.wallet
              (@mkTransferArgs Demo.lib 5 (Some (repeat x01 63))
                 (Some ["hello"]) None None)
              Demo.world0 (or_introl Hkey)) as (msg & Hrun & Hmsg & _).
  rewrite Hrun, (Hmsg Hkey). reflexivity.
Defined.

(** C7 at seqno 5, a 64-byte key, one message and timeout 60. *)
Lemma C7_createTransfer_delegates_witness :
  exists sa : @SignerArgs Demo.lib,
    @createTransfer Demo.lib nat Demo.signer Demo.wallet
      (Demo.transfer_args None) Demo.world0
    = (fst (@createWalletTransferV4 Demo.lib nat Demo.signer sa 0%nat),
       mkWorld (snd (@createWalletTransferV4 Demo.lib nat Demo.signer sa 0%nat))
         [CallSigner sa]) /\
    sa_seqno sa = 5 /\
    sa_secretKey sa = Demo.secret /\
    sa_messages sa = ["hello"] /\
    sa_timeout sa = Some 60 /\
    sa_walletId sa = 698983191.
Proof.
  apply (@C7_createTransfer_delegates Demo.lib nat Demo.signer Demo.wallet
           (Demo.transfer_args None) Demo.world0 Demo.secret ["hello"]).
  - reflexivity.
  - reflexivity.
  - reflexivity.
  - discriminate.
Defined.

(** C9 at a contract that is not yet initialised. *)
Lemma C9_getSeqno_by_state_witness :
  @getSeqno Demo.lib nat (Demo.provider_of "uninit") Demo.world0
  = (ok 0, mkWorld 1%nat [CallGetState]) /\
  fst (@getSeqno Demo.lib nat (Demo.provider_of "active") Demo.world0) = ok 7.
Proof.
  split.
  - apply (@C9_getSeqno_by_state Demo.lib nat (Demo.provider_of "uninit")
             Demo.world0 (mkContractState 1000 (mkAccountState "uninit")) 1%nat
             eq_refl).
    discriminate.
  - apply (@C9_getSeqno_by_state Demo.lib nat (Demo.provider_of "active")
             Demo.world0 (mkContractState 1000 (mkAccountState "active")) 1%nat
             eq_refl)
      with (res := @mkGetResult Demo.lib [7]) (s2 := 2%nat); reflexivity.
Defined.

(** C10 without a send mode, and with send mode 0: what the signer
    receives and what [createTransfer] returns. *)
Lemma C10_sendMode_default_witness :
  (exists sa : @SignerArgs Demo.lib,
     @createTransfer Demo.lib nat Demo.signer Demo.wallet
       (Demo.transfer_args None) Demo.world0
     = (fst (@createWalletTransferV4 Demo.lib nat Demo.signer sa 0%nat),
        mkWorld (snd (@createWalletTransferV4 Demo.lib nat Demo.signer sa 0%nat))
          [CallSigner sa]) /\
     sa_sendMode sa = 1) /\
  (exists sa : @SignerArgs Demo.lib,
     @createTransfer Demo.lib nat Demo.signer Demo.wallet
       (Demo.transfer_args (Some 0)) Demo.world0
     = (fst (@createWalletTransferV4 Demo.lib nat Demo.signer sa 0%nat),
        mkWorld (snd (@createWalletTransferV4 Demo.lib nat Demo.signer sa 0%nat))
          [CallSigner sa]) /\
     sa_sendMode sa = 0).
Proof.
  split.
  - destruct (@C10_sendMode_default Demo.lib nat Demo.signer Demo.wallet
                (Demo.transfer_args None) Demo.world0 Demo.secret ["hello"]
                eq_refl eq_refl eq_refl ltac:(discriminate))
      as (sa & Hrun & Hnone & _).
    exists sa. split; [exact Hrun | exact (Hnone eq_refl)].
  - destruct (@C10_sendMode_default Demo.lib nat Demo.signer Demo.wallet
                (Demo.transfer_args (Some 0)) Demo.world0 Demo.secret ["hello"]
                eq_refl eq_refl eq_refl ltac:(discriminate))
      as (sa & Hrun & _ & Hsome).
    exists sa. split; [exact Hrun | exact (Hsome 0 eq_refl)].
Defined.

(** * Further properties of the construction *)

Section ConstructionExtras.

Context {lib : TonCoreLib}.

Lemma storeUint_out_of_range (v : Z) (n : nat) (b : Builder) :
  v < 0 \/ 2 ^ Z.of_nat n <= v ->
  exists e, storeUint v n b = throw e.
Proof.
  intros Hout. unfold storeUint.
  replace ((v <? 0) || (2 ^ Z.of_nat n <=? v)) with true; [eexists; reflexivity|].
  symmetry. apply orb_true_iff.
  destruct Hout as [Hlo | Hhi]; [left; apply Z.ltb_lt | right; apply Z.leb_le]; assumption.
Qed.

(** A corrupt embedded constant: when the BOC decoder throws on the wallet
    code, [create] on a valid workchain and a 32-byte key throws
    "Failed to build code cell: " followed by the decoder's message,
    whatever the wallet id; the code is built before the data. *)
Theorem create_code_decoding_failure (wc : Z) (pk : list byte) (wid : option Z)
    (e : JsError) :
  wc = -1 \/ wc = 0 ->
  List.length pk = 32%nat ->
  Cell_fromBoc (Buffer_from_base64 WALLET_CODE_BASE64) = throw e ->
  create (mkCreateArgs wc (Some pk) wid)
  = throw (Error (String.append "Failed to build code cell: " (message e))).
Proof.
  intros Hwc Hlen Hboc. unfold create, constructor.
  cbn [ca_workchain ca_publicKey ca_walletId].
  rewrite (workchain_check_passes wc Hwc), Hlen.
  change (Nat.eqb 32 32) with true. cbn [negb].
  unfold buildCode. rewrite Hboc. reflexivity.
Qed.

(** A wallet id that does not fit in 32 unsigned bits: with everything
    else valid, [create] returns no wallet and throws an error whose
    message starts with "Failed to build data cell: ". *)
Theorem create_walletId_out_of_range (wc : Z) (pk : list byte) (id : Z)
    (cells : list Cell) :
  wc = -1 \/ wc = 0 ->
  List.length pk = 32%nat ->
  Cell_fromBoc (Buffer_from_base64 WALLET_CODE_BASE64) = ok cells ->
  id < 0 \/ 2 ^ 32 <= id ->
  exists m,
    create (mkCreateArgs wc (Some pk) (Some id))
    = throw (Error (String.append "Failed to build data cell: " m)).
Proof.
  intros Hwc Hlen Hboc Hout. unfold create, constructor.
  cbn [ca_workchain ca_publicKey ca_walletId].
  rewrite (workchain_check_passes wc Hwc), Hlen.
  change (Nat.eqb 32 32) with true. cbn [negb].
  unfold buildCode. rewrite Hboc, rbind_ok, try_catch_ok, rbind_ok.
  unfold buildData.
  rewrite (storeUint_ok 0 32 beginCell); [|now vm_compute | capacity].
  rewrite rbind_ok.
  destruct (storeUint_out_of_range id 32
              (mkBuilder (b_bits beginCell ++ uint_bits 32 0) (b_refs beginCell)) Hout)
    as [e He].
  rewrite He. exists (message e). reflexivity.
Qed.

(** A returned wallet keeps its arguments: the workchain, the key, and an
    explicit wallet id as given (0 included: only a missing id is replaced
    by the default); its address is the one derived from the workchain and
    its own code and data cells. *)
Theorem create_keeps_arguments (wc : Z) (opk : option (list byte))
    (wid : option Z) (w : WalletContractV4) :
  create (mkCreateArgs wc opk wid) = ok w ->
  workchain w = wc /\
  opk = Some (publicKey w) /\
  (forall id, wid = Some id -> walletId w = id) /\
  address w = contractAddress wc (init w).
Proof.
  unfold create. cbn [ca_workchain ca_publicKey ca_walletId]. intros Hw.
  apply constructor_inv in Hw as (_ & pk & cells & -> & _ & _ & _ & ->).
  cbn [workchain publicKey walletId address init].
  repeat split; try reflexivity.
  intros id ->. reflexivity.
Qed.

(** Every error thrown by [create] is a plain [Error], and its message is
    one of: the workchain message, the key message, "Failed to build code
    cell: " followed by the decoder's message, or "Failed to build data
    cell: " followed by the builder's message. *)
Theorem create_error_forms (args : CreateArgs) (e : JsError) :
  create args = throw e ->
  name e = "Error" /\
  (message e = "Invalid workchain ID: must be -1 or 0" \/
   message e = "Invalid public key: must be 32 bytes" \/
   (exists e0,
      Cell_fromBoc (Buffer_from_base64 WALLET_CODE_BASE64) = throw e0 /\
      message e = String.append "Failed to build code cell: " (message e0)) \/
   (exists m, message e = String.append "Failed to build data cell: " m)).
Proof.
  unfold create, constructor.
  destruct ((ca_workchain args <? -1) || (ca_workchain args >? 0)).
  { intros H. inversion H. split; [reflexivity | left; reflexivity]. }
  destruct (ca_publicKey args) as [pk|].
  2:{ intros H. inversion H. split; [reflexivity | right; left; reflexivity]. }
  destruct (negb (List.length pk =? 32)%nat).
  { intros H. inversion H. split; [reflexivity | right; left; reflexivity]. }
  unfold buildCode.
  destruct (Cell_fromBoc (Buffer_from_base64 WALLET_CODE_BASE64)) as [e0|cells] eqn:Hboc.
  { intros H. inversion H. split; [reflexivity|].
    right; right; left. exists e0. split; reflexivity. }
  change (inr cells) with (@ok (list Cell) cells).
  rewrite rbind_ok, try_catch_ok, rbind_ok.
  unfold buildData.
  match goal with
  | |- context [try_catch _ ?body] => destruct body as [e1|d]
  end.
  - intros H. inversion H. split; [reflexivity|].
    right; right; right. exists (message e1). reflexivity.
  - intros H. discriminate H.
Qed.

(** The data cell identifies the wallet: two returned wallets with the same
    data cell have the same wallet id and the same public key. *)
Theorem data_cell_determines_wallet (a1 a2 : CreateArgs) (w1 w2 : WalletContractV4) :
  create a1 = ok w1 ->
  create a2 = ok w2 ->
  data (init w1) = data (init w2) ->
  walletId w1 = walletId w2 /\ publicKey w1 = publicKey w2.
Proof.
  unfold create. intros H1 H2 Hdata.
  apply constructor_inv in H1 as (_ & pk1 & c1 & _ & Hl1 & _ & Hid1 & ->).
  apply constructor_inv in H2 as (_ & pk2 & c2 & _ & Hl2 & _ & Hid2 & ->).
  cbn [walletId publicKey init data] in *.
  pose proof (decode_wallet_data_cell _ pk1 Hid1 Hl1) as D1.
  pose proof (decode_wallet_data_cell _ pk2 Hid2 Hl2) as D2.
  rewrite Hdata, D2 in D1. inversion D1. split; reflexivity.
Qed.

(** The data cell of a returned wallet holds 321 bits (32 + 32 + 256 + 1)
    and no reference. *)
Theorem data_cell_size (args : CreateArgs) (w : WalletContractV4) :
  create args = ok w ->
  List.length (cell_bits (data (init w))) = 321%nat /\
  cell_refs (data (init w)) = [].
Proof.
  unfold create. intros H.
  apply constructor_inv in H as (_ & pk & cells & _ & Hlen & _ & _ & ->).
  cbn [init data]. unfold wallet_data_cell. cbn [cell_bits cell_refs].
  split; [|reflexivity].
  rewrite !length_app, !uint_bits_length, buffer_bits_length, Hlen. reflexivity.
Qed.

(** The code cell does not depend on the arguments: any two returned
    wallets carry the same code, the first root decoded from the embedded
    constant. *)
Theorem code_cell_shared (a1 a2 : CreateArgs) (w1 w2 : WalletContractV4) :
  create a1 = ok w1 ->
  create a2 = ok w2 ->
  code (init w1) = code (init w2) /\
  exists cells,
    Cell_fromBoc (Buffer_from_base64 WALLET_CODE_BASE64) = ok cells /\
    code (init w1) = hd_error cells.
Proof.
  unfold create. intros H1 H2.
  apply constructor_inv in H1 as (_ & pk1 & c1 & _ & _ & Hb1 & _ & ->).
  apply constructor_inv in H2 as (_ & pk2 & c2 & _ & _ & Hb2 & _ & ->).
  cbn [init code].
  assert (c1 = c2) by (unfold ok in Hb1, Hb2; congruence). subst c2.
  split; [reflexivity|]. exists c1. split; [exact Hb1 | reflexivity].
Qed.

End ConstructionExtras.

(** * Further properties of the calls to the provider and to the signer *)

Section MethodExtras.

Context {lib : TonCoreLib} {S : Type}.
Context {provider : ContractProvider S} {signer : Signer S}.

Lemma try_catchM_run {A} (prefix : string) (m : M A) (w : World S) :
  try_catchM prefix m w = (try_catch prefix (fst (m w)), snd (m w)).
Proof. unfold try_catchM. destruct (m w); reflexivity. Qed.

Lemma bind_ok_run {A B} (m : M A) (k : A -> M B) (w w' : World S) (a : A) :
  m w = (ok a, w') -> bind m k w = k a w'.
Proof. intros H. unfold bind. rewrite H. reflexivity. Qed.

Lemma bind_throw_run {A B} (m : M A) (k : A -> M B) (w w' : World S) (e : JsError) :
  m w = (throw e, w') -> bind m k w = (throw e, w').
Proof. intros H. unfold bind. rewrite H. reflexivity. Qed.

Lemma try_catch_error {A} (prefix : string) (r : Result A) (e : JsError) :
  try_catch prefix r = throw e ->
  name e = "Error" /\ exists m, message e = String.append prefix m.
Proof.
  destruct r as [e0|a]; cbn [try_catch]; intros H; [|discriminate H].
  inversion H. split; [reflexivity | exists (message e0); reflexivity].
Qed.

Lemma try_catchM_error {A} (prefix : string) (m : M A) (w : World S) (e : JsError) :
  fst (try_catchM prefix m w) = throw e ->
  name e = "Error" /\ exists m0, message e = String.append prefix m0.
Proof. rewrite try_catchM_run. cbn [fst]. apply try_catch_error. Qed.

Lemma send_run (message : Cell) (w : World S) :
  send message w
  = (try_catch "Failed to send message: " (fst (external message (outside w))),
     mkWorld (snd (external message (outside w))) (trace w ++ [CallExternal message])).
Proof.
  unfold send. rewrite try_catchM_run. unfold provider_external.
  rewrite perform_run. reflexivity.
Qed.

Lemma createTransfer_key_invalid (this : WalletContractV4) (args : TransferArgs)
    (w : World S) :
  (forall k, secretKey args = Some k -> List.length k <> 64%nat) ->
  createTransfer this args w
  = (throw (Error "Invalid secret key: must be 64 bytes"), w).
Proof.
  intros Hkey. unfold createTransfer.
  destruct (secretKey args) as [k|]; [|reflexivity].
  destruct (List.length k =? 64)%nat eqn:Hlen; cbn [negb]; [|reflexivity].
  apply Nat.eqb_eq in Hlen. destruct (Hkey k eq_refl Hlen).
Qed.

Lemma createTransfer_messages_invalid (this : WalletContractV4)
    (args : TransferArgs) (w : World S) (k : list byte) :
  secretKey args = Some k ->
  List.length k = 64%nat ->
  (forall ms, messages args = Some ms -> ms = []) ->
  createTransfer this args w = (throw (Error "No messages to send"), w).
Proof.
  intros Hk Hlen Hms. unfold createTransfer.
  rewrite Hk, Hlen. change (Nat.eqb 64 64) with true. cbn [negb].
  destruct (messages args) as [ms|]; [|reflexivity].
  rewrite (Hms ms eq_refl). reflexivity.
Qed.

(** Signing then sending, on a well-formed argument: the signer is called
    first; if it throws nothing is sent, otherwise the cell it returned is
    what goes to [provider.external]. *)
Lemma transfer_then_send (this : WalletContractV4) (args : TransferArgs)
    (w : World S) (k : list byte) (ms : list MessageRelaxed) :
  secretKey args = Some k ->
  List.length k = 64%nat ->
  messages args = Some ms ->
  ms <> [] ->
  bind (createTransfer this args) (fun transfer => send transfer) w
  = match createWalletTransferV4 (signer_args_of this args k ms) (outside w) with
    | (inl e, s1) =>
        (inl e, mkWorld s1 (trace w ++ [CallSigner (signer_args_of this args k ms)]))
    | (inr c, s1) =>
        (try_catch "Failed to send message: " (fst (external c s1)),
         mkWorld (snd (external c s1))
           (trace w ++ [CallSigner (signer_args_of this args k ms); CallExternal c]))
    end.
Proof.
  intros Hk Hlen Hms Hne. unfold bind.
  rewrite (createTransfer_valid this args w k ms Hk Hlen Hms Hne).
  fold (signer_args_of this args k ms).
  unfold call_createWalletTransferV4. rewrite perform_run.
  destruct (createWalletTransferV4 (signer_args_of this args k ms) (outside w))
    as [[e|c] s1]; cbn [fst snd]; [reflexivity|].
  rewrite send_run. cbn [outside trace]. rewrite <- app_assoc. reflexivity.
Qed.

(** [getBalance] makes exactly one provider call, [getState], whatever
    happens, and on success returns the balance of the state it got. *)
Theorem getBalance_single_getState (w : World S) :
  trace (snd (getBalance w)) = trace w ++ [CallGetState] /\
  outside (snd (getBalance w)) = snd (getState (outside w)) /\
  (forall st, fst (getState (outside w)) = ok st ->
              fst (getBalance w) = ok (balance st)).
Proof.
  unfold getBalance. rewrite try_catchM_run. unfold bind, provider_getState.
  rewrite perform_run.
  destruct (getState (outside w)) as [[e|st] s1]; cbn [fst snd trace outside ret].
  - repeat split. intros st H. discriminate H.
  - repeat split. intros st' H. inversion H. reflexivity.
Qed.

(** [getSeqno] only ever calls [getState], possibly followed by one
    [get("seqno", [])]: it never sends a message and never signs. *)
Theorem getSeqno_calls (w : World S) :
  trace (snd (getSeqno w)) = trace w ++ [CallGetState] \/
  trace (snd (getSeqno w)) = trace w ++ [CallGetState; CallGet "seqno" []].
Proof.
  unfold getSeqno. rewrite try_catchM_run. unfold bind, provider_getState.
  rewrite perform_run.
  destruct (getState (outside w)) as [[e|st] s1]; cbn [fst snd trace].
  - left. reflexivity.
  - destruct (String.eqb (type (state st)) "active").
    + right. unfold provider_get. rewrite perform_run. cbn [outside trace].
      destruct (get "seqno" [] s1) as [[e|res] s2]; cbn [fst snd lift trace];
        rewrite <- app_assoc; reflexivity.
    + left. reflexivity.
Qed.

(** [send] makes exactly one provider call, [external] on the very cell it
    was given, and returns when that call returns. *)
Theorem send_single_external (msg : Cell) (w : World S) :
  trace (snd (send msg w)) = trace w ++ [CallExternal msg] /\
  outside (snd (send msg w)) = snd (external msg (outside w)) /\
  (forall u, fst (external msg (outside w)) = ok u -> fst (send msg w) = ok u).
Proof.
  rewrite send_run. cbn [fst snd trace outside]. repeat split.
  intros u ->. reflexivity.
Qed.

(** When a call made inside [getBalance], [getSeqno], [send] or
    [sendTransfer] throws an error that carries a message, as every
    [JsError] does, the caller sees a plain [Error] whose message starts
    with the prefix of the method: the name of the original error is
    lost.  (A thrown [null] or [undefined] has no message to read and is
    outside this statement.) *)
Theorem method_errors_carry_prefix (this : WalletContractV4) (w : World S)
    (e : JsError) :
  (fst (getBalance w) = throw e ->
   name e = "Error" /\
   exists m, message e = String.append "Failed to get balance: " m) /\
  (fst (getSeqno w) = throw e ->
   name e = "Error" /\
   exists m, message e = String.append "Failed to get seqno: " m) /\
  (forall msg, fst (send msg w) = throw e ->
   name e = "Error" /\
   exists m, message e = String.append "Failed to send message: " m) /\
  (forall args, fst (sendTransfer this args w) = throw e ->
   name e = "Error" /\
   exists m, message e = String.append "Failed to send transfer: " m).
Proof.
  split; [|split; [|split]].
  - apply try_catchM_error.
  - apply try_catchM_error.
  - intros msg. apply try_catchM_error.
  - intros args. apply try_catchM_error.
Qed.

(** [sendTransfer] on an argument that fails validation touches neither
    the signer nor the provider and throws the message of the guard that
    failed behind its own prefix: "Failed to send transfer: Invalid secret
    key: must be 64 bytes" when the secret key is missing or not 64 bytes
    long, "Failed to send transfer: No messages to send" when the key is
    64 bytes long and the messages are missing or empty. *)
Theorem sendTransfer_invalid_args (this : WalletContractV4)
    (args : TransferArgs) (w : World S) :
  ((forall k, secretKey args = Some k -> List.length k <> 64%nat) ->
   sendTransfer this args w
   = (throw (Error "Failed to send transfer: Invalid secret key: must be 64 bytes"),
      w)) /\
  ((exists k, secretKey args = Some k /\ List.length k = 64%nat) ->
   (forall ms, messages args = Some ms -> ms = []) ->
   sendTransfer this args w
   = (throw (Error "Failed to send transfer: No messages to send"), w)).
Proof.
  split.
  - intros Hkey. unfold sendTransfer. rewrite try_catchM_run.
    rewrite (bind_throw_run _ _ w w _ (createTransfer_key_invalid this args w Hkey)).
    reflexivity.
  - intros (k & Hk & Hlen) Hms. unfold sendTransfer. rewrite try_catchM_run.
    rewrite (bind_throw_run _ _ w w _
               (createTransfer_messages_invalid this args w k Hk Hlen Hms)).
    reflexivity.
Qed.

(** [sendTransfer] when the signer throws: the error comes back with the
    prefix "Failed to send transfer: " and nothing is sent to the
    provider. *)
Theorem sendTransfer_signer_failure (this : WalletContractV4)
    (args : TransferArgs) (w : World S) (k : list byte)
    (ms : list MessageRelaxed) (e : JsError) (s1 : S) :
  secretKey args = Some k ->
  List.length k = 64%nat ->
  messages args = Some ms ->
  ms <> [] ->
  createWalletTransferV4 (signer_args_of this args k ms) (outside w) = (throw e, s1) ->
  sendTransfer this args w
  = (throw (Error (String.append "Failed to send transfer: " (message e))),
     mkWorld s1 (trace w ++ [CallSigner (signer_args_of this args k ms)])).
Proof.
  intros Hk Hlen Hms Hne Hsign.
  unfold sendTransfer. rewrite try_catchM_run.
  rewrite (transfer_then_send this args w k ms Hk Hlen Hms Hne), Hsign.
  reflexivity.
Qed.

(** [sendTransfer] on a well-formed argument signs first and then sends
    exactly the cell the signer returned; when the provider accepts it,
    [sendTransfer] returns and these are the only two calls made. *)
Theorem sendTransfer_sends_signed_cell (this : WalletContractV4)
    (args : TransferArgs) (w : World S) (k : list byte)
    (ms : list MessageRelaxed) (c : Cell) (s1 s2 : S) :
  secretKey args = Some k ->
  List.length k = 64%nat ->
  messages args = Some ms ->
  ms <> [] ->
  createWalletTransferV4 (signer_args_of this args k ms) (outside w) = (ok c, s1) ->
  external c s1 = (ok tt, s2) ->
  sendTransfer this args w
  = (ok tt,
     mkWorld s2
       (trace w ++ [CallSigner (signer_args_of this args k ms); CallExternal c])).
Proof.
  intros Hk Hlen Hms Hne Hsign Hext.
  unfold sendTransfer. rewrite try_catchM_run.
  rewrite (transfer_then_send this args w k ms Hk Hlen Hms Hne), Hsign.
  unfold ok. rewrite Hext. reflexivity.
Qed.

(** [sendTransfer] when the provider refuses the signed message: the error
    is wrapped twice, by [send] and then by [sendTransfer], after one
    signer call and one [external] call. *)
Theorem sendTransfer_provider_failure (this : WalletContractV4)
    (args : TransferArgs) (w : World S) (k : list byte)
    (ms : list MessageRelaxed) (c : Cell) (e : JsError) (s1 s2 : S) :
  secretKey args = Some k ->
  List.length k = 64%nat ->
  messages args = Some ms ->
  ms <> [] ->
  createWalletTransferV4 (signer_args_of this args k ms) (outside w) = (ok c, s1) ->
  external c s1 = (throw e, s2) ->
  sendTransfer this args w
  = (throw (Error (String.append "Failed to send transfer: "
                     (String.append "Failed to send message: " (message e)))),
     mkWorld s2
       (trace w ++ [CallSigner (signer_args_of this args k ms); CallExternal c])).
Proof.
  intros Hk Hlen Hms Hne Hsign Hext.
  unfold sendTransfer. rewrite try_catchM_run.
  rewrite (transfer_then_send this args w k ms Hk Hlen Hms Hne), Hsign.
  unfold ok. rewrite Hext. reflexivity.
Qed.

(** What [sender] returns, when it returns. *)
Lemma sender_inv (this : WalletContractV4) (sk : option (list byte))
    (f : SenderArguments -> M unit) :
  sender this sk = ok f ->
  exists k,
    sk = Some k /\ List.length k = 64%nat /\
    forall args w,
      f args w
      = try_catchM "Sender error: "
          (bind getSeqno (fun n =>
             bind (createTransfer this (sender_transfer_args k args n))
               (fun transfer => send transfer))) w.
Proof.
  unfold sender. destruct sk as [k|]; [|discriminate].
  destruct (List.length k =? 64)%nat eqn:Hlen; cbn [negb]; [|discriminate].
  intros H. inversion H. exists k. apply Nat.eqb_eq in Hlen.
  split; [reflexivity|]. split; [exact Hlen|]. intros args w. reflexivity.
Qed.

(** [sender] returns a [Sender] exactly when the secret key is present and
    64 bytes long; otherwise it throws "Invalid secret key: must be 64
    bytes" at once. *)
Theorem sender_key_validation (this : WalletContractV4) (sk : option (list byte)) :
  ((exists k, sk = Some k /\ List.length k = 64%nat) ->
   exists f, sender this sk = ok f) /\
  ((forall k, sk = Some k -> List.length k <> 64%nat) ->
   sender this sk = throw (Error "Invalid secret key: must be 64 bytes")).
Proof.
  unfold sender. split.
  - intros (k & -> & Hlen). rewrite Hlen. change (Nat.eqb 64 64) with true.
    cbn [negb]. eexists. reflexivity.
  - intros Hbad. destruct sk as [k|]; [|reflexivity].
    destruct (List.length k =? 64)%nat eqn:Hlen; cbn [negb]; [|reflexivity].
    apply Nat.eqb_eq in Hlen. destruct (Hbad k eq_refl Hlen).
Qed.

(** A transfer through a [Sender]: once [getSeqno] has answered [n], the
    signer is called with seqno [n], the sender's secret key, the caller's
    send mode (or the default), no timeout, the wallet's id and one
    internal message built from the caller's [to], [value], [init] and
    [body], with [bounce] true unless the caller said otherwise; the cell
    it returns is then sent, and the call returns when the provider
    accepts it. *)
Theorem sender_send_signs_and_sends (this : WalletContractV4)
    (sk : option (list byte)) (f : SenderArguments -> M unit)
    (args : SenderArguments) (w w1 : World S) (n : Z) (c : Cell) (s2 s3 : S) :
  sender this sk = ok f ->
  getSeqno w = (ok n, w1) ->
  (forall k, sk = Some k ->
     createWalletTransferV4
       (mkSignerArgs n
          (match sd_sendMode args with
           | Some mode => mode
           | None => PAY_GAS_SEPARATELY
           end)
          k
          [internal (sd_to args) (sd_value args) (sd_init args) (sd_body args)
             (match sd_bounce args with
              | Some b => b
              | None => true
              end)]
          None (walletId this))
       (outside w1) = (ok c, s2)) ->
  external c s2 = (ok tt, s3) ->
  exists sa,
    f args w = (ok tt, mkWorld s3 (trace w1 ++ [CallSigner sa; CallExternal c])) /\
    sa_seqno sa = n /\
    sk = Some (sa_secretKey sa) /\
    sa_timeout sa = None /\
    sa_walletId sa = walletId this /\
    sa_messages sa
    = [internal (sd_to args) (sd_value args) (sd_init args) (sd_body args)
         (match sd_bounce args with
          | Some b => b
          | None => true
          end)].
Proof.
  intros Hf Hseq Hsign Hext.
  apply sender_inv in Hf as (k & -> & Hlen & Hrun).
  specialize (Hsign k eq_refl).
  eexists. split.
  - rewrite Hrun, try_catchM_run.
    rewrite (bind_ok_run _ _ w w1 n Hseq).
    rewrite (transfer_then_send this (sender_transfer_args k args n) w1 k _
               eq_refl Hlen eq_refl ltac:(discriminate)).
    unfold signer_args_of, sender_transfer_args.
    cbn [seqno sendMode timeout].
    rewrite Hsign. unfold ok. rewrite Hext. reflexivity.
  - cbn [sa_seqno sa_secretKey sa_timeout sa_walletId sa_messages].
    repeat split; reflexivity.
Qed.

(** A transfer through a [Sender] when the provider cannot report the
    state: the error comes back as "Sender error: Failed to get seqno: "
    followed by the provider's message, after that single call; nothing is
    signed and nothing is sent. *)
Theorem sender_send_state_failure (this : WalletContractV4)
    (sk : option (list byte)) (f : SenderArguments -> M unit)
    (args : SenderArguments) (w : World S) (e : JsError) (s1 : S) :
  sender this sk = ok f ->
  getState (outside w) = (throw e, s1) ->
  f args w
  = (throw (Error (String.append "Sender error: "
                     (String.append "Failed to get seqno: " (message e)))),
     mkWorld s1 (trace w ++ [CallGetState])).
Proof.
  intros Hf Hstate.
  apply sender_inv in Hf as (k & -> & Hlen & Hrun).
  rewrite Hrun, try_catchM_run.
  rewrite (bind_throw_run _ _ w _ _ (getSeqno_getState_fails w e s1 Hstate)).
  reflexivity.
Qed.

(** The first transfer of a wallet that is not deployed: when the state is
    not "active" the [Sender] signs with seqno 0 without calling any
    get-method, then sends; the calls are [getState], the signer and
    [external], in that order. *)
Theorem sender_send_fresh_wallet (this : WalletContractV4)
    (sk : option (list byte)) (f : SenderArguments -> M unit)
    (args : SenderArguments) (w : World S) (st : ContractState) (s1 s2 s3 : S)
    (k : list byte) (c : Cell) :
  sender this sk = ok f ->
  sk = Some k ->
  getState (outside w) = (ok st, s1) ->
  type (state st) <> "active" ->
  createWalletTransferV4
    (signer_args_of this (sender_transfer_args k args 0) k
       [internal (sd_to args) (sd_value args) (sd_init args) (sd_body args)
          (match sd_bounce args with
           | Some b => b
           | None => true
           end)])
    s1 = (ok c, s2) ->
  external c s2 = (ok tt, s3) ->
  exists sa,
    f args w
    = (ok tt, mkWorld s3 (trace w ++ [CallGetState; CallSigner sa; CallExternal c])) /\
    sa_seqno sa = 0.
Proof.
  intros Hf -> Hstate Hty Hsign Hext.
  apply sender_inv in Hf as (k' & Hk' & Hlen & Hrun).
  inversion Hk'; subst k'.
  eexists. split.
  - rewrite Hrun, try_catchM_run.
    rewrite (bind_ok_run _ _ w _ 0 (getSeqno_not_active w st s1 Hstate Hty)).
    rewrite (transfer_then_send this (sender_transfer_args k args 0) _ k _
               eq_refl Hlen eq_refl ltac:(discriminate)).
    cbn [outside trace]. rewrite Hsign. unfold ok. rewrite Hext.
    cbn [fst snd try_catch]. rewrite <- app_assoc. reflexivity.
  - reflexivity.
Qed.


(** [createTransfer] works offline: whatever its argument, it makes no
    provider call; it either makes no call at all or calls the signer
    once. *)
Theorem createTransfer_offline (this : WalletContractV4) (args : TransferArgs)
    (w : World S) :
  trace (snd (createTransfer this args w)) = trace w \/
  exists sa, trace (snd (createTransfer this args w)) = trace w ++ [CallSigner sa].
Proof.
  unfold createTransfer.
  destruct (secretKey args) as [k|]; [|left; reflexivity].
  destruct (negb (List.length k =? 64)%nat); [left; reflexivity|].
  destruct (messages args) as [ms|]; [|left; reflexivity].
  destruct (List.length ms =? 0)%nat; [left; reflexivity|].
  right. eexists. unfold call_createWalletTransferV4. rewrite perform_run.
  reflexivity.
Qed.

End MethodExtras.

(** ** The further properties at concrete inputs *)

Lemma create_code_decoding_failure_witness :
  @create Demo.broken_lib (mkCreateArgs 0 (Some Demo.zero_key) None)
  = throw (Error "Failed to build code cell: Invalid magic").
Proof.
  apply (@create_code_decoding_failure Demo.broken_lib 0 Demo.zero_key None
           Demo.invalid_magic).
  - right. reflexivity.
  - reflexivity.
  - reflexivity.
Defined.

Lemma create_walletId_out_of_range_witness :
  exists m,
    @create Demo.lib (mkCreateArgs 0 (Some Demo.zero_key) (Some 4294967296))
    = throw (Error (String.append "Failed to build data cell: " m)).
Proof.
  apply (@create_walletId_out_of_range Demo.lib 0 Demo.zero_key 4294967296
           [Demo.code_cell]).
  - right. reflexivity.
  - reflexivity.
  - reflexivity.
  - right. vm_compute. discriminate.
Defined.

Lemma create_keeps_arguments_witness :
  workchain Demo.wallet7 = 0 /\
  Some Demo.zero_key = Some (publicKey Demo.wallet7) /\
  walletId Demo.wallet7 = 7.
Proof.
  destruct (@create_keeps_arguments Demo.lib 0 (Some Demo.zero_key) (Some 7)
              Demo.wallet7 eq_refl) as (Hwc & Hpk & Hid & _).
  split; [exact Hwc|]. split; [exact Hpk | exact (Hid 7 eq_refl)].
Defined.

Lemma create_error_forms_witness :
  name (Error "Invalid public key: must be 32 bytes") = "Error".
Proof.
  exact (proj1 (@create_error_forms Demo.lib (mkCreateArgs 0 None None)
                  (Error "Invalid public key: must be 32 bytes") eq_refl)).
Defined.

Lemma data_cell_determines_wallet_witness :
  walletId Demo.wallet7 = walletId Demo.wallet7_masterchain /\
  publicKey Demo.wallet7 = publicKey Demo.wallet7_masterchain.
Proof.
  apply (@data_cell_determines_wallet Demo.lib
           (mkCreateArgs 0 (Some Demo.zero_key) (Some 7))
           (mkCreateArgs (-1) (Some Demo.zero_key) (Some 7))
           Demo.wallet7 Demo.wallet7_masterchain); reflexivity.
Defined.

Lemma data_cell_size_witness :
  List.length (cell_bits (data (init Demo.wallet7))) = 321%nat /\
  cell_refs (data (init Demo.wallet7)) = [].
Proof.
  apply (@data_cell_size Demo.lib (mkCreateArgs 0 (Some Demo.zero_key) (Some 7))
           Demo.wallet7).
  reflexivity.
Defined.

Lemma code_cell_shared_witness :
  code (init Demo.wallet) = code (init Demo.wallet7_masterchain).
Proof.
  apply (@code_cell_shared Demo.lib
           (mkCreateArgs 0 (Some Demo.zero_key) None)
           (mkCreateArgs (-1) (Some Demo.zero_key) (Some 7))
           Demo.wallet Demo.wallet7_masterchain); reflexivity.
Defined.

Lemma getBalance_single_getState_witness :
  fst (@getBalance Demo.lib nat (Demo.provider_of "active") Demo.world0) = ok 1000.
Proof.
  destruct (@getBalance_single_getState Demo.lib nat (Demo.provider_of "active")
              Demo.world0) as (_ & _ & Hok).
  exact (Hok (mkContractState 1000 (mkAccountState "active")) eq_refl).
Defined.

Lemma send_single_external_witness :
  fst (@send Demo.lib nat (Demo.provider_of "active") Demo.code_cell Demo.world0)
  = ok tt.
Proof.
  destruct (@send_single_external Demo.lib nat (Demo.provider_of "active")
              Demo.code_cell Demo.world0) as (_ & _ & Hok).
  exact (Hok tt eq_refl).
Defined.

Lemma method_errors_carry_prefix_witness :
  name (Error "Failed to get seqno: connection reset") = "Error" /\
  exists m,
    message (Error "Failed to get seqno: connection reset")
    = String.append "Failed to get seqno: " m.
Proof.
  destruct (@method_errors_carry_prefix Demo.lib nat Demo.failing_provider
              Demo.signer Demo.wallet Demo.world0
              (Error "Failed to get seqno: connection reset")) as (_ & Hseq & _).
  exact (Hseq eq_refl).
Defined.

Lemma sendTransfer_invalid_args_witness :
  @sendTransfer Demo.lib nat Demo.failing_provider Demo.signer Demo.wallet
    (@mkTransferArgs Demo.lib 5 (Some Demo.secret) (Some []) None None)
    Demo.world0
  = (throw (Error "Failed to send transfer: No messages to send"), Demo.world0) /\
  @sendTransfer Demo.lib nat Demo.failing_provider Demo.signer Demo.wallet
    (@mkTransferArgs Demo.lib 5 None (Some ["hello"]) None None)
    Demo.world0
  = (throw (Error "Failed to send transfer: Invalid secret key: must be 64 bytes"),
     Demo.world0).
Proof.
  split.
  - apply (proj2 (@sendTransfer_invalid_args Demo.lib nat Demo.failing_provider
                    Demo.signer Demo.wallet
                    (@mkTransferArgs Demo.lib 5 (Some Demo.secret) (Some []) None None)
                    Demo.world0)).
    + exists Demo.secret. split; reflexivity.
    + intros ms Hms. injection Hms as <-. reflexivity.
  - apply (proj1 (@sendTransfer_invalid_args Demo.lib nat Demo.failing_provider
                    Demo.signer Demo.wallet
                    (@mkTransferArgs Demo.lib 5 None (Some ["hello"]) None None)
                    Demo.world0)).
    intros k Hk. discriminate Hk.
Defined.

Lemma sendTransfer_signer_failure_witness :
  @sendTransfer Demo.lib nat (Demo.provider_of "active") Demo.failing_signer
    Demo.wallet (Demo.transfer_args None) Demo.world0
  = (throw (Error "Failed to send transfer: bad secret key"),
     mkWorld 1%nat
       [CallSigner (@signer_args_of Demo.lib Demo.wallet (Demo.transfer_args None)
                      Demo.secret ["hello"])]).
Proof.
  apply (@sendTransfer_signer_failure Demo.lib nat (Demo.provider_of "active")
           Demo.failing_signer Demo.wallet (Demo.transfer_args None) Demo.world0
           Demo.secret ["hello"] Demo.signing_failed 1%nat).
  - reflexivity.
  - reflexivity.
  - reflexivity.
  - discriminate.
  - reflexivity.
Defined.

Lemma sendTransfer_sends_signed_cell_witness :
  @sendTransfer Demo.lib nat (Demo.provider_of "active") Demo.signer
    Demo.wallet (Demo.transfer_args None) Demo.world0
  = (ok tt,
     mkWorld 2%nat
       [CallSigner (@signer_args_of Demo.lib Demo.wallet (Demo.transfer_args None)
                      Demo.secret ["hello"]);
        CallExternal (mkCell (uint_bits 32 5) [] false)]).
Proof.
  apply (@sendTransfer_sends_signed_cell Demo.lib nat (Demo.provider_of "active")
           Demo.signer Demo.wallet (Demo.transfer_args None) Demo.world0
           Demo.secret ["hello"] (mkCell (uint_bits 32 5) [] false) 1%nat 2%nat).
  - reflexivity.
  - reflexivity.
  - reflexivity.
  - discriminate.
  - reflexivity.
  - reflexivity.
Defined.

Lemma sendTransfer_provider_failure_witness :
  @sendTransfer Demo.lib nat Demo.failing_provider Demo.signer
    Demo.wallet (Demo.transfer_args None) Demo.world0
  = (throw (Error "Failed to send transfer: Failed to send message: connection reset"),
     mkWorld 2%nat
       [CallSigner (@signer_args_of Demo.lib Demo.wallet (Demo.transfer_args None)
                      Demo.secret ["hello"]);
        CallExternal (mkCell (uint_bits 32 5) [] false)]).
Proof.
  apply (@sendTransfer_provider_failure Demo.lib nat Demo.failing_provider
           Demo.signer Demo.wallet (Demo.transfer_args None) Demo.world0
           Demo.secret ["hello"] (mkCell (uint_bits 32 5) [] false)
           Demo.connection_reset 1%nat 2%nat).
  - reflexivity.
  - reflexivity.
  - reflexivity.
  - discriminate.
  - reflexivity.
  - reflexivity.
Defined.

Lemma sender_key_validation_witness :
  @sender Demo.lib nat (Demo.provider_of "active") Demo.signer Demo.wallet None
  = throw (Error "Invalid secret key: must be 64 bytes").
Proof.
  apply (proj2 (@sender_key_validation Demo.lib nat (Demo.provider_of "active")
                  Demo.signer Demo.wallet None)).
  intros k Hk. discriminate Hk.
Defined.

Lemma sender_send_signs_and_sends_witness :
  exists f sa,
    @sender Demo.lib nat (Demo.provider_of "active") Demo.signer Demo.wallet
      (Some Demo.secret) = ok f /\
    f (Demo.sender_args None) Demo.world0
    = (ok tt,
       mkWorld 4%nat
         [CallGetState; CallGet "seqno" []; CallSigner sa;
          CallExternal (mkCell (uint_bits 32 7) [] false)]) /\
    sa_seqno sa = 7 /\
    sa_timeout sa = None /\
    sa_walletId sa = 698983191.
Proof.
  eexists.
  assert (Hf : @sender Demo.lib nat (Demo.provider_of "active") Demo.signer
                 Demo.wallet (Some Demo.secret) = ok ?[f]) by reflexivity.
  destruct (@sender_send_signs_and_sends Demo.lib nat (Demo.provider_of "active")
              Demo.signer Demo.wallet (Some Demo.secret) _
              (Demo.sender_args None) Demo.world0
              (mkWorld 2%nat [CallGetState; CallGet "seqno" []]) 7
              (mkCell (uint_bits 32 7) [] false) 3%nat 4%nat
              Hf eq_refl (fun k _ => eq_refl) eq_refl)
    as (sa & Hrun & Hn & _ & Ht & Hid & _).
  exists sa. split; [exact Hf|]. split; [exact Hrun|].
  split; [exact Hn|]. split; [exact Ht | exact Hid].
Defined.

Lemma sender_send_state_failure_witness :
  exists f,
    @sender Demo.lib nat Demo.failing_provider Demo.signer Demo.wallet
      (Some Demo.secret) = ok f /\
    f (Demo.sender_args None) Demo.world0
    = (throw (Error "Sender error: Failed to get seqno: connection reset"),
       mkWorld 1%nat [CallGetState]).
Proof.
  eexists.
  assert (Hf : @sender Demo.lib nat Demo.failing_provider Demo.signer
                 Demo.wallet (Some Demo.secret) = ok ?[f]) by reflexivity.
  split; [exact Hf|].
  exact (@sender_send_state_failure Demo.lib nat Demo.failing_provider Demo.signer
           Demo.wallet (Some Demo.secret) _ (Demo.sender_args None) Demo.world0
           Demo.connection_reset 1%nat Hf eq_refl).
Defined.

Lemma sender_send_fresh_wallet_witness :
  exists f sa,
    @sender Demo.lib nat (Demo.provider_of "uninit") Demo.signer Demo.wallet
      (Some Demo.secret) = ok f /\
    f (Demo.sender_args (Some false)) Demo.world0
    = (ok tt,
       mkWorld 3%nat
         [CallGetState; CallSigner sa;
          CallExternal (mkCell (uint_bits 32 0) [] false)]) /\
    sa_seqno sa = 0.
Proof.
  eexists.
  assert (Hf : @sender Demo.lib nat (Demo.provider_of "uninit") Demo.signer
                 Demo.wallet (Some Demo.secret) = ok ?[f]) by reflexivity.
  destruct (@sender_send_fresh_wallet Demo.lib nat (Demo.provider_of "uninit")
              Demo.signer Demo.wallet (Some Demo.secret) _
              (Demo.sender_args (Some false)) Demo.world0
              (mkContractState 1000 (mkAccountState "uninit")) 1%nat 2%nat 3%nat
              Demo.secret (mkCell (uint_bits 32 0) [] false)
              Hf eq_refl eq_refl ltac:(discriminate) eq_refl eq_refl)
    as (sa & Hrun & Hn).
  exists sa. split; [exact Hf|]. split; [exact Hrun | exact Hn].
Defined.


(** * The constructor over JavaScript numbers *)

Section NumberProperties.

Context {lib : TonCoreLib} {rt : Js.Runtime}.

(** The numbers the guard [workchain < -1 || workchain > 0] lets through:
    -1, 0, NaN, and every non-integer strictly between -1 and 0. *)
Lemma workchain_guard_false_iff (wc : Js.number) :
  Js.ltb wc (Js.Int (-1)) || Js.gtb wc (Js.Int 0) = false <->
  wc = Js.Int (-1) \/ wc = Js.Int 0 \/ wc = Js.NaN \/
  exists p, wc = Js.NonInt (-1) p.
Proof.
  unfold Js.gtb. split.
  - destruct wc as [z | f p | | | ]; cbn [Js.ltb]; intros H.
    + apply orb_false_iff in H as [Hlo Hhi].
      apply Z.ltb_ge in Hlo. apply Z.ltb_ge in Hhi.
      assert (z = -1 \/ z = 0) as [-> | ->] by lia; [left | right; left]; reflexivity.
    + apply orb_false_iff in H as [Hlo Hhi].
      apply Z.ltb_ge in Hlo. apply Z.leb_gt in Hhi.
      assert (f = -1) as -> by lia. right; right; right. exists p. reflexivity.
    + discriminate H.
    + discriminate H.
    + right; right; left. reflexivity.
  - intros [-> | [-> | [-> | [p ->]]]]; reflexivity.
Qed.

Lemma number_buildData_int (id : Z) (pk : list byte) :
  Js.buildData (Js.Int id) pk = buildData id pk.
Proof. reflexivity. Qed.

Lemma number_buildData_not_int (v : Js.number) (pk : list byte) :
  (forall id, v <> Js.Int id) ->
  exists m,
    Js.buildData v pk = throw (Error (String.append "Failed to build data cell: " m)).
Proof.
  intros Hv. unfold Js.buildData.
  rewrite (storeUint_ok 0 32 beginCell); [|now vm_compute | capacity].
  rewrite rbind_ok.
  destruct v as [id | f p | | | ]; [destruct (Hv id eq_refl) | | | | ];
    eexists; reflexivity.
Qed.

(** Everything a wallet returned by the constructor over numbers holds. *)
Lemma number_constructor_inv (wc : Js.number) (opk : option (list byte))
    (wid : option Js.number) (w : Js.WalletContractV4) :
  Js.constructor wc opk wid = ok w ->
  Js.ltb wc (Js.Int (-1)) || Js.gtb wc (Js.Int 0) = false /\
  exists pk cells id,
    opk = Some pk /\
    List.length pk = 32%nat /\
    Cell_fromBoc (Buffer_from_base64 WALLET_CODE_BASE64) = ok cells /\
    Js.resolved_walletId wc wid = Js.Int id /\
    0 <= id < 2 ^ 32 /\
    w = Js.mkWallet wc pk
          (Js.contractAddress wc
             (mkInit (hd_error cells) (wallet_data_cell id pk)))
          (Js.Int id)
          (mkInit (hd_error cells) (wallet_data_cell id pk)).
Proof.
  unfold Js.constructor.
  destruct (Js.ltb wc (Js.Int (-1)) || Js.gtb wc (Js.Int 0)) eqn:Hwc; [discriminate|].
  destruct opk as [pk|]; [|discriminate].
  destruct (List.length pk =? 32)%nat eqn:Hlen; cbn [negb]; [|discriminate].
  fold (Js.resolved_walletId wc wid). intros H.
  apply rbind_ok_inv in H as (c & Hcode & H).
  apply rbind_ok_inv in H as (d & Hdata & H).
  unfold buildCode in Hcode. apply try_catch_ok_inv in Hcode.
  apply rbind_ok_inv in Hcode as (cells & Hboc & Hhd).
  destruct (Js.resolved_walletId wc wid) as [id | f p | | | ] eqn:Hres.
  2-5: match type of Hdata with
       | Js.buildData ?v ?k = _ =>
           destruct (number_buildData_not_int v k
                       ltac:(intros id0 E; discriminate E)) as [m Hm];
           rewrite Hm in Hdata; discriminate Hdata
       end.
  rewrite number_buildData_int in Hdata. unfold buildData in Hdata.
  apply try_catch_ok_inv in Hdata.
  apply data_builder_chain_inv in Hdata as [Hid ->].
  inversion Hhd; subst c. inversion H; subst w.
  split; [reflexivity|].
  exists pk, cells, id. apply Nat.eqb_eq in Hlen.
  repeat split; try assumption; try reflexivity; apply Hid.
Qed.

Lemma number_constructor_ok (wc : Js.number) (pk : list byte)
    (wid : option Js.number) (cells : list Cell) (id : Z) :
  Js.ltb wc (Js.Int (-1)) || Js.gtb wc (Js.Int 0) = false ->
  List.length pk = 32%nat ->
  Cell_fromBoc (Buffer_from_base64 WALLET_CODE_BASE64) = ok cells ->
  Js.resolved_walletId wc wid = Js.Int id ->
  0 <= id < 2 ^ 32 ->
  Js.constructor wc (Some pk) wid
  = ok (Js.mkWallet wc pk
          (Js.contractAddress wc
             (mkInit (hd_error cells) (wallet_data_cell id pk)))
          (Js.Int id)
          (mkInit (hd_error cells) (wallet_data_cell id pk))).
Proof.
  intros Hwc Hlen Hboc Hres Hid. unfold Js.constructor.
  rewrite Hwc, Hlen. change (Nat.eqb 32 32) with true. cbn [negb].
  fold (Js.resolved_walletId wc wid). rewrite Hres.
  unfold buildCode. rewrite Hboc, rbind_ok, try_catch_ok, rbind_ok.
  rewrite number_buildData_int. unfold buildData.
  fold (data_builder_chain id pk).
  rewrite (data_builder_chain_ok _ _ Hid Hlen), try_catch_ok, rbind_ok.
  reflexivity.
Qed.

(** On integer arguments the constructor over numbers is [create]. *)
Lemma create_on_integers (wc : Z) (opk : option (list byte)) (wid : option Z) :
  (forall z i, Js.contractAddress (Js.Int z) i = contractAddress z i) ->
  Js.create (Js.mkCreateArgs (Js.Int wc) opk (option_map Js.Int wid))
  = match create (mkCreateArgs wc opk wid) with
    | inl e => inl e
    | inr w => inr (wallet_to_js w)
    end.
Proof.
  intros Haddr. unfold Js.create, create, Js.constructor, constructor.
  cbn [Js.ca_workchain Js.ca_publicKey Js.ca_walletId
       ca_workchain ca_publicKey ca_walletId].
  unfold Js.gtb. cbn [Js.ltb]. rewrite (Z.gtb_ltb wc 0).
  destruct ((wc <? -1) || (0 <? wc)) eqn:Hwc; [reflexivity|].
  destruct opk as [pk|]; [|reflexivity].
  destruct (negb (List.length pk =? 32)%nat); [reflexivity|].
  assert (Hres : match option_map Js.Int wid with
                 | Some id => id
                 | None => Js.add (Js.Int 698983191) (Js.Int wc)
                 end
                 = Js.Int (match wid with
                           | Some id => id
                           | None => 698983191 + wc
                           end)).
  { destruct wid as [id|]; [reflexivity|]. cbn [option_map].
    apply orb_false_iff in Hwc as [Hlo Hhi].
    apply Z.ltb_ge in Hlo. apply Z.ltb_ge in Hhi.
    assert (wc = -1 \/ wc = 0) as [-> | ->] by lia; reflexivity. }
  rewrite Hres, number_buildData_int.
  destruct buildCode as [e|c]; [reflexivity|].
  change (inr c) with (@ok (option Cell) c). rewrite !rbind_ok.
  destruct (buildData _ pk) as [e|d]; [reflexivity|].
  change (inr d) with (@ok Cell d). rewrite !rbind_ok.
  unfold wallet_to_js. cbn [workchain publicKey address walletId init].
  rewrite Haddr. reflexivity.
Qed.

(** Claim C4, at the inputs where the code departs from it.  A workchain
    that is NaN, or a non-integer strictly between -1 and 0, is neither -1
    nor 0, yet both comparisons of the guard are false on it: with a
    32-byte key and an explicit wallet id that fits in 32 bits, [create]
    does not throw and returns a wallet carrying that workchain. *)
Theorem C4_guard_accepts_non_integer_workchain (wc : Js.number)
    (pk : list byte) (id : Z) (cells : list Cell) :
  wc = Js.NaN \/ (exists p, wc = Js.NonInt (-1) p) ->
  List.length pk = 32%nat ->
  Cell_fromBoc (Buffer_from_base64 WALLET_CODE_BASE64) = ok cells ->
  0 <= id < 2 ^ 32 ->
  wc <> Js.Int (-1) /\
  wc <> Js.Int 0 /\
  exists w,
    Js.create (Js.mkCreateArgs wc (Some pk) (Some (Js.Int id))) = ok w /\
    Js.workchain w = wc /\
    Js.walletId w = Js.Int id.
Proof.
  intros Hwc Hlen Hboc Hid.
  split; [destruct Hwc as [-> | [p ->]]; discriminate|].
  split; [destruct Hwc as [-> | [p ->]]; discriminate|].
  eexists. split.
  - unfold Js.create. cbn [Js.ca_workchain Js.ca_publicKey Js.ca_walletId].
    apply (number_constructor_ok wc pk (Some (Js.Int id)) cells id);
      try assumption; try reflexivity.
    apply workchain_guard_false_iff.
    destruct Hwc as [-> | [p ->]]; [right; right; left; reflexivity|].
    right; right; right. exists p. reflexivity.
  - split; reflexivity.
Qed.

(** The constructor over numbers throws "Invalid workchain ID: must be -1
    or 0" on every integer other than -1 and 0, on both infinities and on
    every non-integer outside the interval from -1 to 0, whatever the key
    and the wallet id. *)
Theorem create_number_invalid_workchain (wc : Js.number)
    (opk : option (list byte)) (wid : option Js.number) :
  (exists z, wc = Js.Int z /\ z <> -1 /\ z <> 0) \/
  wc = Js.Infinity \/ wc = Js.NegInfinity \/
  (exists f p, wc = Js.NonInt f p /\ f <> -1) ->
  Js.create (Js.mkCreateArgs wc opk wid)
  = throw (Error "Invalid workchain ID: must be -1 or 0").
Proof.
  intros Hwc. unfold Js.create, Js.constructor.
  cbn [Js.ca_workchain Js.ca_publicKey Js.ca_walletId].
  destruct (Js.ltb wc (Js.Int (-1)) || Js.gtb wc (Js.Int 0)) eqn:Hguard;
    [reflexivity|].
  exfalso. apply workchain_guard_false_iff in Hguard.
  destruct Hwc as [(z & -> & Hm1 & H0) | [-> | [-> | (f & p & -> & Hf)]]];
    destruct Hguard as [E | [E | [E | [q E]]]];
    try discriminate E; inversion E; subst; congruence.
Qed.

(** The constructor over numbers returns a wallet exactly when the
    workchain passes the guard (it is -1, 0, NaN or a non-integer strictly
    between -1 and 0), the key is present and 32 bytes long, the embedded
    code decodes and the resolved wallet id is an integer that fits in 32
    unsigned bits. *)
Theorem create_number_returns_iff (wc : Js.number) (opk : option (list byte))
    (wid : option Js.number) :
  (exists w, Js.create (Js.mkCreateArgs wc opk wid) = ok w) <->
  (wc = Js.Int (-1) \/ wc = Js.Int 0 \/ wc = Js.NaN \/
   exists p, wc = Js.NonInt (-1) p) /\
  (exists pk, opk = Some pk /\ List.length pk = 32%nat) /\
  (exists cells, Cell_fromBoc (Buffer_from_base64 WALLET_CODE_BASE64) = ok cells) /\
  (exists id, Js.resolved_walletId wc wid = Js.Int id /\ 0 <= id < 2 ^ 32).
Proof.
  unfold Js.create. cbn [Js.ca_workchain Js.ca_publicKey Js.ca_walletId]. split.
  - intros [w Hw].
    apply number_constructor_inv in Hw
      as (Hwc & pk & cells & id & Hpk & Hlen & Hboc & Hres & Hid & _).
    split; [apply workchain_guard_false_iff; exact Hwc|].
    split; [exists pk; split; assumption|].
    split; [exists cells; exact Hboc|].
    exists id. split; assumption.
  - intros (Hwc & (pk & -> & Hlen) & (cells & Hboc) & (id & Hres & Hid)).
    eexists. apply (number_constructor_ok wc pk wid cells id); try assumption.
    apply workchain_guard_false_iff. exact Hwc.
Qed.

(** A NaN workchain without a wallet id: the guard lets NaN through, the
    default wallet id [698983191 + NaN] is NaN, and [create] throws an
    error whose message starts with "Failed to build data cell: ". *)
Theorem create_number_NaN_default_walletId (pk : list byte) (cells : list Cell) :
  List.length pk = 32%nat ->
  Cell_fromBoc (Buffer_from_base64 WALLET_CODE_BASE64) = ok cells ->
  exists m,
    Js.create (Js.mkCreateArgs Js.NaN (Some pk) None)
    = throw (Error (String.append "Failed to build data cell: " m)).
Proof.
  intros Hlen Hboc. unfold Js.create, Js.constructor.
  cbn [Js.ca_workchain Js.ca_publicKey Js.ca_walletId Js.ltb Js.gtb orb].
  rewrite Hlen. change (Nat.eqb 32 32) with true. cbn [negb Js.add].
  unfold buildCode. rewrite Hboc, rbind_ok, try_catch_ok, rbind_ok.
  destruct (number_buildData_not_int Js.NaN pk
              ltac:(intros id E; discriminate E)) as [m Hm].
  rewrite Hm. exists m. reflexivity.
Qed.

End NumberProperties.

(** C4's counter-input: workchain -0.5, the all-zero key, wallet id 7. *)
Lemma C4_guard_accepts_non_integer_workchain_witness :
  @Js.create Demo.lib Demo.runtime
    (Js.mkCreateArgs Demo.minus_half (Some Demo.zero_key) (Some (Js.Int 7)))
  = ok Demo.wallet_minus_half /\
  Demo.minus_half <> Js.Int (-1) /\
  Demo.minus_half <> Js.Int 0.
Proof.
  destruct (@C4_guard_accepts_non_integer_workchain Demo.lib Demo.runtime
              Demo.minus_half Demo.zero_key 7 [Demo.code_cell]
              (or_intror (ex_intro _ 1%positive eq_refl)) eq_refl eq_refl)
    as (Hm1 & H0 & _).
  - vm_compute. split; [discriminate | reflexivity].
  - split; [reflexivity|]. split; [exact Hm1 | exact H0].
Defined.

Lemma create_number_invalid_workchain_witness :
  @Js.create Demo.lib Demo.runtime
    (Js.mkCreateArgs (Js.NonInt 0 1) (Some Demo.zero_key) None)
  = throw (Error "Invalid workchain ID: must be -1 or 0").
Proof.
  apply (@create_number_invalid_workchain Demo.lib Demo.runtime).
  right; right; right. exists 0, 1%positive. split; [reflexivity | discriminate].
Defined.

Lemma create_number_returns_iff_witness :
  exists w,
    @Js.create Demo.lib Demo.runtime
      (Js.mkCreateArgs Js.NaN (Some Demo.zero_key) (Some (Js.Int 0))) = ok w.
Proof.
  apply (proj2 (@create_number_returns_iff Demo.lib Demo.runtime Js.NaN
                  (Some Demo.zero_key) (Some (Js.Int 0)))).
  split; [right; right; left; reflexivity|].
  split; [exists Demo.zero_key; split; reflexivity|].
  split; [exists [Demo.code_cell]; reflexivity|].
  exists 0. split; [reflexivity|].
  vm_compute. split; [discriminate | reflexivity].
Defined.

Lemma create_number_NaN_default_walletId_witness :
  exists m,
    @Js.create Demo.lib Demo.runtime
      (Js.mkCreateArgs Js.NaN (Some Demo.zero_key) None)
    = throw (Error (String.append "Failed to build data cell: " m)).
Proof.
  apply (@create_number_NaN_default_walletId Demo.lib Demo.runtime
           Demo.zero_key [Demo.code_cell]); reflexivity.
Defined.
